(** * Budget dashboard: the load / clean / filter / aggregate pipeline

    A shallow embedding of [ga.py] (the dashboard script) and [g.py] (the
    plain viewer).  A pandas [DataFrame] is an ordered list of named columns,
    every column a list of cells; the pandas calls the scripts make
    ([replace], [to_numeric], [fillna], [apply], boolean indexing,
    [sort_values], [head], [groupby(...).sum()], [melt], [sum], [empty]) are
    modelled on that representation, each with the exceptions it can raise.

    Numbers: a float cell carries the finite binary64 number it holds, as
    the rational that number is.  What the libraries compute with floats is
    not fixed here but taken as given ([Libraries] below): the number
    [pd.to_numeric] reads from a text, the float [Series.sum()] returns and
    the float [groupby(...).sum()] returns, which are two routines that
    round differently.  So are the calls into Streamlit and Altair, each of
    which may raise.  Every property is proved for whatever these answer.
    Infinities, the sign of zero and the arithmetic of NaN are outside the
    model; a missing value is the separate cell [CNaN].  Text is ASCII. *)

From Stdlib Require Import String Ascii Bool Arith ZArith QArith Lia List.
From Stdlib Require Import Permutation Sorted.
From Stdlib Require Qreduction.
From Stdlib Require Uint63 PrimFloat SpecFloat FloatOps.
Import ListNotations.

Open Scope string_scope.
Open Scope Z_scope.
Open Scope list_scope.

(** ** Exceptions and results *)

Inductive exn : Type :=
| FileNotFoundError
| ParserError
| KeyError (column : string)
| ValueError
| AttributeError
| TypeError
| LibraryError (call : string).   (* raised inside Streamlit or Altair *)

Inductive result (A : Type) : Type :=
| Ok (a : A)
| Raise (e : exn).

Arguments Ok {A} a.
Arguments Raise {A} e.

Definition bind {A B : Type} (m : result A) (k : A -> result B) : result B :=
  match m with
  | Ok a => k a
  | Raise e => Raise e
  end.

Notation "x <- m ;; k" := (bind m (fun x => k))
  (at level 61, m at next level, right associativity).

Notation "m ;; k" := (bind m (fun _ => k))
  (at level 61, right associativity).

(** [for x in xs: st = body(st, x)], stopping at the first exception. *)
Fixpoint for_each {A S : Type} (xs : list A) (body : S -> A -> result S)
  (st : S) : result S :=
  match xs with
  | [] => Ok st
  | x :: xs' => st' <- body st x ;; for_each xs' body st'
  end.

(** [[f(x) for x in xs]], stopping at the first exception. *)
Fixpoint map_result {A B : Type} (f : A -> result B) (xs : list A)
  : result (list B) :=
  match xs with
  | [] => Ok []
  | x :: xs' => y <- f x ;; ys <- map_result f xs' ;; Ok (y :: ys)
  end.

(** ** Cells *)

Inductive cell : Type :=
| CStr (s : string)     (* text, as read from the file *)
| CInt (z : Z)          (* an integer *)
| CFloat (q : Q)        (* a float, by the number it denotes *)
| CNaN.                 (* missing: numpy's nan *)

Definition Series : Type := list cell.

Definition is_numeric (c : cell) : bool :=
  match c with
  | CInt _ | CFloat _ => true
  | CStr _ | CNaN => false
  end.

Definition is_text (c : cell) : bool :=
  match c with
  | CStr _ => true
  | _ => false
  end.

Definition is_int (c : cell) : bool :=
  match c with
  | CInt _ => true
  | _ => false
  end.

(** The number a numeric cell stands for. *)
Definition cell_value (c : cell) : option Q :=
  match c with
  | CInt z => Some (inject_Z z)
  | CFloat q => Some q
  | CStr _ | CNaN => None
  end.

(** Python's [==] on two scalars, which is also what [Series == scalar]
    computes element by element: nan equals nothing, text equals only equal
    text, an integer equals the float of the same value. *)
Definition cell_eqb (a b : cell) : bool :=
  match a, b with
  | CStr s, CStr t => String.eqb s t
  | CInt x, CInt y => Z.eqb x y
  | CInt x, CFloat q | CFloat q, CInt x => Qeq_bool (inject_Z x) q
  | CFloat p, CFloat q => Qeq_bool p q
  | _, _ => false
  end.

(** ** Text: [str.split], [int()] and the numeric parser *)

Definition chars (s : string) : list ascii := list_ascii_of_string s.

(** The whitespace [int()] drops around ASCII text: tab, line feed,
    vertical tab, form feed, carriage return and the space. *)
Definition is_space (c : ascii) : bool :=
  let n := nat_of_ascii c in
  (((9 <=? n) && (n <=? 13)) || (n =? 32))%nat.

Definition is_digit (c : ascii) : bool :=
  let n := nat_of_ascii c in ((48 <=? n) && (n <=? 57))%nat.

Definition digit_value (c : ascii) : Z := Z.of_nat (nat_of_ascii c) - 48.

Definition is_dash (c : ascii) : bool := Ascii.eqb c "-"%char.

(** [x.split('-')[0]]: the text before the first dash, all of [x] when it
    has none. *)
Fixpoint before_dash (x : string) : string :=
  match x with
  | EmptyString => EmptyString
  | String c x' => if is_dash c then EmptyString else String c (before_dash x')
  end.

Fixpoint lstrip (l : list ascii) : list ascii :=
  match l with
  | c :: l' => if is_space c then lstrip l' else l
  | [] => []
  end.

Definition strip (l : list ascii) : list ascii :=
  rev (lstrip (rev (lstrip l))).

(** Decimal digits with single underscores between them, as [int()] reads
    them; [after_digit] says whether the previous character was a digit. *)
Fixpoint int_digits (acc : Z) (after_digit : bool) (l : list ascii)
  : option Z :=
  match l with
  | [] => if after_digit then Some acc else None
  | c :: l' =>
      if is_digit c then int_digits (10 * acc + digit_value c) true l'
      else if Ascii.eqb c "_"%char && after_digit then int_digits acc false l'
      else None
  end.

(** [sys.get_int_max_str_digits()], as CPython sets it by default. *)
Definition int_max_str_digits : Z := 4300.

(** Python's [int(s)] on text: surrounding whitespace is dropped, one sign
    is allowed, then decimal digits, no more of them than
    [int_max_str_digits].  [None] is [ValueError]. *)
Definition py_int (s : string) : option Z :=
  let l := strip (chars s) in
  if int_max_str_digits <? Z.of_nat (length (filter is_digit l)) then None
  else
    match l with
    | "+"%char :: l' => int_digits 0 false l'
    | "-"%char :: l' => option_map Z.opp (int_digits 0 false l')
    | _ => int_digits 0 false l
    end.

Fixpoint span_digits (l : list ascii) : list ascii * list ascii :=
  match l with
  | c :: l' =>
      if is_digit c
      then let (ds, rest) := span_digits l' in (c :: ds, rest)
      else ([], l)
  | [] => ([], [])
  end.

Definition digits_value (ds : list ascii) : Z :=
  fold_left (fun acc c => 10 * acc + digit_value c) ds 0.

Definition split_sign (l : list ascii) : bool * list ascii :=
  match l with
  | "+"%char :: l' => (false, l')
  | "-"%char :: l' => (true, l')
  | _ => (false, l)
  end.

(** [m * 10^k] as a reduced fraction. *)
Definition scale10 (m k : Z) : Q :=
  Qreduction.Qred
    (if 0 <=? k then inject_Z (m * 10 ^ k)
     else Qmake m (Z.to_pos (10 ^ (- k)))).

(** The digits after the point of a plain decimal: none when there is no
    point, at least one after a point, and nothing behind them. *)
Definition fraction_digits (l : list ascii) : option (list ascii) :=
  match l with
  | [] => Some []
  | "."%char :: r =>
      match span_digits r with
      | ((_ :: _) as fp, []) => Some fp
      | _ => None
      end
  | _ => None
  end.

(** The plain decimals: an optional sign, digits, and optionally a point
    and more digits; no blanks and no exponent; at most fifteen digits in
    all; and a value [m / 10^k] that is itself a binary64 number, which for
    so few digits means that [5^k] divides [m].  On these any conversion to
    binary64 is exact, so the number read is the number written: "1234.5"
    is 2469/2, while "0.1" is no plain decimal. *)
Definition plain_decimal (s : string) : option Q :=
  let (neg, body) := split_sign (chars s) in
  let (ip, r1) := span_digits body in
  match ip, fraction_digits r1 with
  | _ :: _, Some fp =>
      let m := digits_value (ip ++ fp) in
      let k := Z.of_nat (length fp) in
      if (length (ip ++ fp) <=? 15)%nat && (m mod 5 ^ k =? 0)
      then Some (scale10 (if neg then - m else m) (- k))
      else None
  | _, _ => None
  end.

(** ** Data frames *)

(** The columns in order, each with its cells in row order. *)
Definition DataFrame : Type := list (string * Series).

Definition columns (df : DataFrame) : list string := map fst df.

Definition nrows (df : DataFrame) : nat :=
  match df with
  | [] => O
  | (_, s) :: _ => length s
  end.

(** [df.empty]: no column or no row. *)
Definition empty (df : DataFrame) : bool :=
  (length df =? 0)%nat || (nrows df =? 0)%nat.

Fixpoint lookup (c : string) (df : DataFrame) : option Series :=
  match df with
  | [] => None
  | (c', s) :: df' => if String.eqb c c' then Some s else lookup c df'
  end.

(** [df[c]] *)
Definition getitem (df : DataFrame) (c : string) : result Series :=
  match lookup c df with
  | Some s => Ok s
  | None => Raise (KeyError c)
  end.

(** [df[c] = s]: an existing column is overwritten where it stands, a new
    one is appended after the last column. *)
Fixpoint setitem (df : DataFrame) (c : string) (s : Series) : DataFrame :=
  match df with
  | [] => [(c, s)]
  | (c', s') :: df' =>
      if String.eqb c c' then (c', s) :: df' else (c', s') :: setitem df' c s
  end.

(** [df[[c1, ..., cn]]] *)
Definition getitem_list (df : DataFrame) (cs : list string)
  : result DataFrame :=
  map_result (fun c => s <- getitem df c ;; Ok (c, s)) cs.

(** Row [i], as the cells of the columns in order. *)
Definition row : Type := list (string * cell).

Definition iloc (df : DataFrame) (i : nat) : row :=
  map (fun cs => (fst cs, nth i (snd cs) CNaN)) df.

Definition rows (df : DataFrame) : list row :=
  map (iloc df) (seq 0 (nrows df)).

Fixpoint field (c : string) (r : row) : cell :=
  match r with
  | [] => CNaN
  | (c', v) :: r' => if String.eqb c c' then v else field c r'
  end.

(** [s.take(idx)] and [df.take(idx)]: the rows at the given positions. *)
Definition series_take (idx : list nat) (s : Series) : Series :=
  map (fun i => nth i s CNaN) idx.

Definition take (idx : list nat) (df : DataFrame) : DataFrame :=
  map (fun cs => (fst cs, series_take idx (snd cs))) df.

(** [mask.nonzero()]: the positions that hold [True]. *)
Definition nonzero (mask : list bool) : list nat :=
  filter (fun i => nth i mask false) (seq 0 (length mask)).

(** [df[mask]]: pandas takes the rows at the non-zero positions. *)
Definition getitem_bool (df : DataFrame) (mask : list bool) : DataFrame :=
  take (nonzero mask) df.

(** [s == v] *)
Definition series_eq (s : Series) (v : cell) : list bool :=
  map (fun c => cell_eqb c v) s.

(** [df.head(n)] *)
Definition head (n : nat) (df : DataFrame) : DataFrame :=
  map (fun cs => (fst cs, firstn n (snd cs))) df.

(** ** What the libraries answer *)

(** A call into Streamlit or Altair, by what it is given. *)
Inductive widget : Type :=
| Text (call : string) (body : string) (args : list cell)
    (* [st.title], [st.markdown], [st.header], ...: a text, with the values
       an f-string puts into it *)
| Selectbox (label : string) (options : list cell)
| Columns (n : nat)
| Metric (label : string) (value : Q)
| Tabs (labels : list string)
| Chart (title : string) (data : DataFrame)
    (* [alt.Chart(data).mark_...().encode(...).properties(...).interactive()] *)
| AltairChart (title : string) (data : DataFrame)
    (* [st.altair_chart(chart, use_container_width=True)] *)
| Dataframe (data : DataFrame).

(** What is not code of the two scripts and is not determined by them.

    [to_numeric_other]: the finite number [pd.to_numeric] converts a text
    to that is not one of the plain decimals; [None] when the text does not
    convert.  (Texts pandas converts to an infinity are outside the model.)

    [sum_values], [group_sum_values]: the number [Series.sum()] returns for
    a column without text, and the number [groupby(...).sum()] returns for
    the cells of one group, in row order.  numpy computes the first and
    pandas's own loop the second, each adding in binary64 in its own way.

    [present line w]: the call [w] into Streamlit or Altair that the script
    makes at [line] returns, or raises. *)
Class Libraries : Type := {
  to_numeric_other : string -> option Q;
  sum_values : Series -> Q;
  group_sum_values : Series -> Q;
  present : nat -> widget -> result unit
}.

(** ** The cleaning steps on a column *)

Fixpoint assoc (k : string) (d : list (string * cell)) : option cell :=
  match d with
  | [] => None
  | (k', v) :: d' => if String.eqb k k' then Some v else assoc k d'
  end.

(** [s.replace({...})] with text keys: a cell equal to a key becomes the
    key's value. *)
Definition replace (to_replace : list (string * cell)) (s : Series)
  : Series :=
  map (fun c =>
         match c with
         | CStr t => match assoc t to_replace with Some v => v | None => c end
         | _ => c
         end) s.

(** The number [pd.to_numeric] reads from one text cell: the number
    written for a plain decimal, what the library answers for any other
    text.  [None] is a conversion failure. *)
Definition to_numeric_text {L : Libraries} (t : string) : option Q :=
  match plain_decimal t with
  | Some q => Some q
  | None => to_numeric_other t
  end.

(** [pd.to_numeric(s, errors='coerce')]: text that converts becomes its
    number, text that does not becomes nan, numbers and nan stay. *)
Definition to_numeric_coerce {L : Libraries} (s : Series) : Series :=
  map (fun c =>
         match c with
         | CStr t =>
             match to_numeric_text t with Some q => CFloat q | None => CNaN end
         | _ => c
         end) s.

(** [s.fillna(v)] on a column that holds nan, hence floats. *)
Definition fillna (v : Z) (s : Series) : Series :=
  map (fun c => match c with CNaN => CFloat (inject_Z v) | _ => c end) s.

(** [s.apply(f)] *)
Definition series_apply (f : cell -> result cell) (s : Series) : result Series :=
  map_result f s.

(** [lambda x: int(x.split('-')[0])]: only text has [split]. *)
Definition start_year_of (x : cell) : result cell :=
  match x with
  | CStr s =>
      match py_int (before_dash s) with
      | Some z => Ok (CInt z)
      | None => Raise ValueError
      end
  | _ => Raise AttributeError
  end.

Definition finance_cols : list string :=
  [ "Revenue (Plan)"; "Capital (Plan)"; "Total (Plan)";
    "Revenue (Non-Plan)"; "Capital (Non-Plan)"; "Total (Non-Plan)";
    "Total Plan & Non-Plan" ].

(** The body of [for col in finance_cols]. *)
Definition clean_column {L : Libraries} (df : DataFrame) (col : string)
  : result DataFrame :=
  s <- getitem df col ;;
  let df := setitem df col (replace [("-", CNaN); ("NA", CNaN)] s) in
  s <- getitem df col ;;
  let df := setitem df col (to_numeric_coerce s) in
  s <- getitem df col ;;
  Ok (setitem df col (fillna 0 s)).

(** [ga.py], [load_and_clean_data].  [read_csv] is what [pd.read_csv]
    answers for a path: the table, or the exception it raises. *)
Definition load_and_clean_data {L : Libraries}
  (read_csv : string -> result DataFrame) (file_path : string)
  : result DataFrame :=
  df <- read_csv file_path ;;
  df <- for_each finance_cols clean_column df ;;
  year <- getitem df "Year" ;;
  start <- series_apply start_year_of year ;;
  let df := setitem df "Start Year" start in
  total <- getitem df "Total Plan & Non-Plan" ;;
  Ok (setitem df "Total Budget (INR Cr)" total).

(** ** Filters ([ga.py], lines 74-80) *)

Definition All_Ministries : cell := CStr "All Ministries".
Definition All_Years : cell := CStr "All Years".

(** Python's [a != b]. *)
Definition py_ne (a b : cell) : bool := negb (cell_eqb a b).

Definition df_filtered (df : DataFrame) (selected_ministry selected_year : cell)
  : result DataFrame :=
  let df_filtered := df in
  df_filtered <-
    (if py_ne selected_ministry All_Ministries then
       col <- getitem df_filtered "Ministry Name" ;;
       Ok (getitem_bool df_filtered (series_eq col selected_ministry))
     else Ok df_filtered) ;;
  if py_ne selected_year All_Years then
    col <- getitem df_filtered "Start Year" ;;
    Ok (getitem_bool df_filtered (series_eq col selected_year))
  else Ok df_filtered.

(** The predicate a row has to satisfy: one equality test per selector that
    is not its sentinel. *)
Definition row_selected (selected_ministry selected_year : cell) (r : row)
  : bool :=
  (if py_ne selected_ministry All_Ministries
   then cell_eqb (field "Ministry Name" r) selected_ministry else true)
  &&
  (if py_ne selected_year All_Years
   then cell_eqb (field "Start Year" r) selected_year else true).

(** ** Sums and key metrics ([ga.py], lines 90-95) *)

(** [s.sum()]: the number the library's reduction returns, whether pandas
    holds it as an integer or as a float.  Text among the numbers is a
    [TypeError] (at the latest when the total is formatted as a number). *)
Definition series_sum {L : Libraries} (s : Series) : result Q :=
  if existsb is_text s then Raise TypeError else Ok (sum_values s).

(** The sum [groupby(...).sum()] makes of the cells of one group. *)
Definition group_sum {L : Libraries} (s : Series) : result Q :=
  if existsb is_text s then Raise TypeError else Ok (group_sum_values s).

Record metrics : Type := {
  total_budget : Q;
  total_plan : Q;
  total_non_plan : Q
}.

(** [None]: the block under [if not df_filtered.empty] is not run. *)
Definition key_metrics {L : Libraries} (df_filtered : DataFrame)
  : result (option metrics) :=
  if negb (empty df_filtered) then
    tb <- getitem df_filtered "Total Budget (INR Cr)" ;;
    total_budget <- series_sum tb ;;
    tp <- getitem df_filtered "Total (Plan)" ;;
    total_plan <- series_sum tp ;;
    tn <- getitem df_filtered "Total (Non-Plan)" ;;
    total_non_plan <- series_sum tn ;;
    Ok (Some {| total_budget := total_budget;
                total_plan := total_plan;
                total_non_plan := total_non_plan |})
  else Ok None.

(** ** Trend ([ga.py], line 129) *)

Fixpoint insert_key (k : Z) (l : list Z) : list Z :=
  match l with
  | [] => [k]
  | x :: l' =>
      if k <? x then k :: l
      else if k =? x then l
      else x :: insert_key k l'
  end.

(** The distinct keys in ascending order, as [groupby] lists its groups. *)
Definition sorted_unique (ks : list Z) : list Z :=
  fold_right insert_key [] ks.

Definition int_keys (s : Series) : list Z :=
  flat_map (fun c => match c with CInt z => [z] | _ => [] end) s.

Definition has_key (k : Z) (c : cell) : bool :=
  match c with
  | CInt z => z =? k
  | _ => false
  end.

(** The values of the rows whose key is [k], in row order. *)
Definition group_values (k : Z) (keys vals : Series) : Series :=
  map snd (filter (fun kv => has_key k (fst kv)) (combine keys vals)).

(** [df.groupby(by)[col].sum().reset_index()] for an integer key column
    (rows with any other key are left out, as pandas leaves out rows with a
    missing key): one row per distinct key, ascending, with the sum of the
    group. *)
Definition groupby_sum {L : Libraries} (df : DataFrame) (by_ col : string)
  : result DataFrame :=
  keys <- getitem df by_ ;;
  vals <- getitem df col ;;
  let ks := sorted_unique (int_keys keys) in
  sums <- map_result (fun k => group_sum (group_values k keys vals)) ks ;;
  Ok [(by_, map CInt ks); (col, map CFloat sums)].

Definition df_trend {L : Libraries} (df : DataFrame) : result DataFrame :=
  groupby_sum df "Start Year" "Total Budget (INR Cr)".

(** ** Breakdown by year ([ga.py], line 150) *)

(** Descending order of sort keys with missing values last: may [a] stand
    before [b]? *)
Definition desc_before (a b : option Q) : bool :=
  match a, b with
  | Some x, Some y => Qle_bool y x
  | Some _, None => true
  | None, Some _ => false
  | None, None => true
  end.

Section Argsort.
Variable key : nat -> option Q.

Fixpoint insert_index (i : nat) (l : list nat) : list nat :=
  match l with
  | [] => [i]
  | j :: l' =>
      if desc_before (key i) (key j) then i :: l
      else j :: insert_index i l'
  end.

Definition argsort_desc (n : nat) : list nat :=
  fold_right insert_index [] (seq 0 n).
End Argsort.

(** [df.sort_values(by, ascending=False)] on a numeric column: the sorting
    permutation of the key column is taken from every column.  Text in the
    key column is a [TypeError].  Rows with equal keys keep their order
    here; pandas leaves their order to the sorting routine. *)
Definition sort_values_desc (df : DataFrame) (by_ : string)
  : result DataFrame :=
  k <- getitem df by_ ;;
  if existsb is_text k then Raise TypeError
  else
    Ok (take (argsort_desc (fun i => cell_value (nth i k CNaN)) (length k)) df).

Definition df_year_breakdown (df_filtered : DataFrame) : result DataFrame :=
  sorted <- sort_values_desc df_filtered "Total Budget (INR Cr)" ;;
  Ok (head 10 sorted).

(** ** Breakdown by ministry ([ga.py], lines 167-172) *)

(** [df.melt(id_vars=[id_var], value_vars=..., var_name=..., value_name=...)]:
    for each value column in turn, one row per row of [df]. *)
Definition melt (df : DataFrame) (id_var : string) (value_vars : list string)
  (var_name value_name : string) : result DataFrame :=
  ids <- getitem df id_var ;;
  vals <- getitem_list df value_vars ;;
  Ok [ (id_var, flat_map (fun _ => ids) vals);
       (var_name,
         flat_map (fun vs => repeat (CStr (fst vs)) (length (snd vs))) vals);
       (value_name, flat_map snd vals) ].

Definition df_plan_nonplan (df_filtered : DataFrame) : result DataFrame :=
  sub <- getitem_list df_filtered
           ["Start Year"; "Total (Plan)"; "Total (Non-Plan)"] ;;
  melt sub "Start Year" ["Total (Plan)"; "Total (Non-Plan)"] "Type" "Amount".

(** ** The scripts *)

(** [s.unique().tolist()]: the distinct values in order of first
    appearance, nan counting as one value. *)
Definition same_value (a b : cell) : bool :=
  match a, b with
  | CNaN, CNaN => true
  | _, _ => cell_eqb a b
  end.

Fixpoint unique (s : Series) : list cell :=
  match s with
  | [] => []
  | c :: s' => c :: filter (fun d => negb (same_value c d)) (unique s')
  end.

(** Python's [a < b] where it is defined: text with text, number with
    number (nan is below and above nothing). *)
Definition cell_ltb (a b : cell) : bool :=
  match a, b with
  | CStr s, CStr t => String.ltb s t
  | _, _ =>
      match cell_value a, cell_value b with
      | Some x, Some y => negb (Qle_bool y x)
      | _, _ => false
      end
  end.

Fixpoint insert_cell (c : cell) (l : list cell) : list cell :=
  match l with
  | [] => [c]
  | d :: l' => if cell_ltb d c then d :: insert_cell c l' else c :: l
  end.

(** [sorted(l)]: comparing text with a number is a [TypeError]. *)
Definition py_sorted (l : list cell) : result (list cell) :=
  if existsb is_text l && existsb (fun c => negb (is_text c)) l
  then Raise TypeError
  else Ok (fold_right insert_cell [] l).

(** [st.selectbox(label, options)]: the option the user picked, the first
    one by default. *)
Definition selectbox (options : list cell) (picked : nat) : cell :=
  nth picked options (hd CNaN options).

Inductive breakdown : Type :=
| TopMinistries (df_year_breakdown : DataFrame)
| PlanVsNonPlan (df_plan_nonplan : DataFrame)
| InfoMessage.

(** What one run of the dashboard shows. *)
Record page : Type := {
  selected_ministry : cell;
  selected_year : cell;
  filtered : DataFrame;
  key_figures : option metrics;
  trend : DataFrame;
  detail : breakdown;
  raw_data : DataFrame
}.

Inductive outcome : Type :=
| Uncaught (e : exn)     (* an exception leaves the script *)
| Stopped (e : exn)      (* [st.error(...)] then [st.stop()] *)
| Rendered (p : page).

Definition file_path : string := "Budget.csv".

(** [ga.py], lines 45-54: the guarded block. *)
Definition load_block {L : Libraries} (read_csv : string -> result DataFrame)
  : result (DataFrame * list cell * list cell) :=
  df <- load_and_clean_data read_csv file_path ;;
  names <- getitem df "Ministry Name" ;;
  sorted_names <- py_sorted (unique names) ;;
  let all_ministries := All_Ministries :: sorted_names in
  years <- getitem df "Start Year" ;;
  sorted_years <- py_sorted (unique years) ;;
  let all_years := All_Years :: sorted_years in
  present 50 (Text "st.sidebar.success" "Data loaded successfully!" []) ;;
  Ok (df, all_ministries, all_years).

(** [ga.py], lines 97-115: the three figures side by side. *)
Definition show_metrics {L : Libraries} (figures : option metrics)
  : result unit :=
  match figures with
  | Some m =>
      present 97 (Columns 3) ;;
      present 100 (Metric "Total Budget (All Time/Filtered)" (total_budget m)) ;;
      present 106 (Metric "Total Plan Expenditure" (total_plan m)) ;;
      present 112 (Metric "Total Non-Plan Expenditure" (total_non_plan m))
  | None => Ok tt
  end.

(** [ga.py], lines 57-192, once the guarded block has succeeded: the
    computations and, between them, the calls that put things on the page
    (the pictograms of the titles are left out of the texts). *)
Definition dashboard {L : Libraries} (df : DataFrame)
  (all_ministries all_years : list cell)
  (picked_ministry picked_year : nat) : result page :=
  present 58 (Text "st.sidebar.title" "Dashboard Filters" []) ;;
  present 59 (Text "st.sidebar.markdown" "---" []) ;;
  present 62 (Selectbox "Select Ministry:" all_ministries) ;;
  let selected_ministry := selectbox all_ministries picked_ministry in
  present 68 (Selectbox "Select Financial Year:" all_years) ;;
  let selected_year := selectbox all_years picked_year in
  flt <- df_filtered df selected_ministry selected_year ;;
  present 84 (Text "st.title" "Indian Budget Visualizer" []) ;;
  present 85 (Text "st.markdown" "**Viewing Data for:** **{}** in **{}**"
                [selected_ministry; selected_year]) ;;
  present 86 (Text "st.markdown" "---" []) ;;
  figures <- key_metrics flt ;;
  show_metrics figures ;;
  present 117 (Text "st.markdown" "---" []) ;;
  present 122 (Tabs ["Budget Trends Over Time"; "Ministry/Year Breakdown";
                     "Raw Data"]) ;;
  present 125 (Text "st.header" "Budget Trend Analysis" []) ;;
  present 126 (Text "st.caption"
                 "Shows how the total budget has changed over the years." []) ;;
  trend <- df_trend df ;;
  present 132 (Chart "Total Budget of All Ministries Over Time" trend) ;;
  present 140 (AltairChart "Total Budget of All Ministries Over Time" trend) ;;
  present 144 (Text "st.header" "Detailed Budget Breakdown" []) ;;
  detail <-
    (if py_ne selected_year All_Years then
       present 147 (Text "st.subheader" "Budget Distribution for Year {}"
                      [selected_year]) ;;
       top <- df_year_breakdown flt ;;
       present 152 (Chart "Top Ministries by Budget in {}" top) ;;
       present 161 (AltairChart "Top Ministries by Budget in {}" top) ;;
       Ok (TopMinistries top)
     else if py_ne selected_ministry All_Ministries then
       present 164 (Text "st.subheader"
                      "Plan vs. Non-Plan Expenditure for {}"
                      [selected_ministry]) ;;
       long <- df_plan_nonplan flt ;;
       present 174 (Chart "Plan vs. Non-Plan Expenditure for {}" long) ;;
       present 183 (AltairChart "Plan vs. Non-Plan Expenditure for {}" long) ;;
       Ok (PlanVsNonPlan long)
     else
       present 186
         (Text "st.info"
            "Select a specific **Year** or **Ministry** in the sidebar to view a detailed breakdown chart."
            []) ;;
       Ok InfoMessage) ;;
  present 190 (Text "st.header" "Raw Data Table" []) ;;
  present 191 (Text "st.markdown"
                 "The complete, cleaned dataset for inspection." []) ;;
  present 192 (Dataframe df) ;;
  Ok {| selected_ministry := selected_ministry;
        selected_year := selected_year;
        filtered := flt;
        key_figures := figures;
        trend := trend;
        detail := detail;
        raw_data := df |}.

(** [ga.py] as a whole: [try: ... except Exception as e: st.error(...);
    st.stop()] around the guarded block, the rest unguarded. *)
Definition ga {L : Libraries} (read_csv : string -> result DataFrame)
  (picked_ministry picked_year : nat) : outcome :=
  match load_block read_csv with
  | Raise e => Stopped e
  | Ok (df, all_ministries, all_years) =>
      match dashboard df all_ministries all_years
              picked_ministry picked_year with
      | Raise e => Uncaught e
      | Ok p => Rendered p
      end
  end.

(** [g.py]: [except FileNotFoundError] and [except Exception] both report
    and stop; otherwise the table is shown as read. *)
Inductive viewer_outcome : Type :=
| NotFound
| ReadFailed (e : exn)
| Shown (first_rows : DataFrame) (full : DataFrame).

Definition g (read_csv : string -> result DataFrame) : viewer_outcome :=
  match read_csv file_path with
  | Ok df => Shown (head 5 df) df
  | Raise FileNotFoundError => NotFound
  | Raise e => ReadFailed e
  end.

(** ** Libraries to run the scripts with *)

(** The number a cell adds to a sum, and the sum of a column as a plain
    recursion over its cells. *)
Definition value0 (c : cell) : Q :=
  match cell_value c with
  | Some q => q
  | None => 0%Q
  end.

Definition qsum (s : Series) : Q :=
  fold_right (fun c acc => (value0 c + acc)%Q) 0%Q s.

(** A presentation layer in which every call returns. *)
Definition calm (line : nat) (w : widget) : result unit := Ok tt.

(** Sums without rounding, and no text read as a number but the plain
    decimals. *)
Definition exact_sums : Libraries :=
  {| to_numeric_other := fun _ => None;
     sum_values := qsum;
     group_sum_values := qsum;
     present := calm |}.


(** binary64, by the floats of the kernel.  A cell holds a binary64 number
    as a fraction [n / 2^k] with [n] below [2^53]; where both parts are
    below [2^63], as in the tables below, they are binary64 numbers
    themselves and the division gives the number back exactly. *)
Definition to_float (q : Q) : PrimFloat.float :=
  let n := Qnum q in
  let a := PrimFloat.of_uint63 (Uint63.of_Z (Z.abs n)) in
  let d := PrimFloat.of_uint63 (Uint63.of_Z (Zpos (Qden q))) in
  let x := PrimFloat.div a d in
  if n <? 0 then PrimFloat.opp x else x.

Definition of_float (f : PrimFloat.float) : Q :=
  match FloatOps.Prim2SF f with
  | SpecFloat.S754_finite s m e =>
      let v := if 0 <=? e then inject_Z (Zpos m * 2 ^ e)
               else Qmake (Zpos m) (Z.to_pos (2 ^ (- e))) in
      Qreduction.Qred (if s then Qopp v else v)
  | _ => 0%Q
  end.

Definition float_add (a b : Q) : Q :=
  of_float (PrimFloat.add (to_float a) (to_float b)).

Definition float_sub (a b : Q) : Q :=
  of_float (PrimFloat.sub (to_float a) (to_float b)).

(** numpy's [add.reduce] on fewer than eight numbers: it adds them to 0.0
    one after the other (a missing value counting as 0.0, as [Series.sum()]
    passes it). *)
Definition add_in_order (s : Series) : Q :=
  fold_left (fun acc c => float_add acc (value0 c)) s 0%Q.

(** pandas's [group_sum]: Kahan's summation, which carries the rounding
    error of each addition into the next; missing values are skipped. *)
Fixpoint kahan (sumx compensation : Q) (vals : list Q) : Q :=
  match vals with
  | [] => sumx
  | val :: vals' =>
      let y := float_sub val compensation in
      let t := float_add sumx y in
      kahan t (float_sub (float_sub t sumx) y) vals'
  end.

Definition add_compensated (s : Series) : Q :=
  kahan 0 0 (flat_map (fun c => match cell_value c with
                                | Some q => [q]
                                | None => []
                                end) s).



(** ** Small budget tables to run the scripts on *)

Definition sample : DataFrame :=
  [ ("Ministry Name",
      [CStr "Defence"; CStr "Health"; CStr "Defence"; CStr "Health"]);
    ("Year",
      [CStr "2015-2016"; CStr "2015-2016"; CStr "2016-2017"; CStr "2016-2017"]);
    ("Revenue (Plan)", [CStr "-"; CStr "10"; CStr "NA"; CStr "n/a"]);
    ("Capital (Plan)", [CStr "1.5"; CStr "2"; CStr "3"; CStr "4"]);
    ("Total (Plan)", [CStr "1.5"; CStr "12"; CStr "3"; CStr "4"]);
    ("Revenue (Non-Plan)", [CInt 1; CInt 2; CInt 3; CInt 4]);
    ("Capital (Non-Plan)", [CFloat 1; CNaN; CFloat 3; CFloat 4]);
    ("Total (Non-Plan)", [CStr "1233"; CStr "2"; CStr "6"; CStr "8"]);
    ("Total Plan & Non-Plan",
      [CStr "1234.5"; CStr "14"; CStr "9"; CStr "12"]) ].

Definition read_sample (path : string) : result DataFrame :=
  if String.eqb path "Budget.csv" then Ok sample else Raise FileNotFoundError.

(** The sample with a Year cell whose text before the dash is no integer,
    and one with a ministry and year combination that has no row. *)
Definition sample_bad_year : DataFrame :=
  setitem sample "Year"
    [CStr "2015-2016"; CStr "FY15-16"; CStr "2016-2017"; CStr "2016-2017"].

Definition read_bad_year (path : string) : result DataFrame :=
  if String.eqb path "Budget.csv" then Ok sample_bad_year
  else Raise FileNotFoundError.

Definition sparse : DataFrame :=
  [ ("Ministry Name", [CStr "Defence"; CStr "Health"]);
    ("Year", [CStr "2015-2016"; CStr "2016-2017"]);
    ("Revenue (Plan)", [CStr "1"; CStr "2"]);
    ("Capital (Plan)", [CStr "1"; CStr "2"]);
    ("Total (Plan)", [CStr "2"; CStr "4"]);
    ("Revenue (Non-Plan)", [CStr "1"; CStr "2"]);
    ("Capital (Non-Plan)", [CStr "1"; CStr "2"]);
    ("Total (Non-Plan)", [CStr "2"; CStr "4"]);
    ("Total Plan & Non-Plan", [CStr "4"; CStr "8"]) ].

Definition read_sparse (path : string) : result DataFrame :=
  if String.eqb path "Budget.csv" then Ok sparse else Raise FileNotFoundError.

(** A table in which one ministry has two rows for the same year. *)
Definition twice : DataFrame :=
  [ ("Ministry Name", [CStr "Defence"; CStr "Defence"; CStr "Health"]);
    ("Year", [CStr "2015-2016"; CStr "2015-2016"; CStr "2015-2016"]);
    ("Revenue (Plan)", [CStr "1"; CStr "2"; CStr "3"]);
    ("Capital (Plan)", [CStr "1"; CStr "2"; CStr "3"]);
    ("Total (Plan)", [CStr "2"; CStr "4"; CStr "6"]);
    ("Revenue (Non-Plan)", [CStr "1"; CStr "2"; CStr "3"]);
    ("Capital (Non-Plan)", [CStr "1"; CStr "2"; CStr "3"]);
    ("Total (Non-Plan)", [CStr "2"; CStr "4"; CStr "6"]);
    ("Total Plan & Non-Plan", [CStr "4"; CStr "8"; CStr "12"]) ].

Definition read_twice (path : string) : result DataFrame :=
  if String.eqb path "Budget.csv" then Ok twice else Raise FileNotFoundError.

(** Twelve rows of one year, to see [head(10)] cut. *)
Definition dozen : DataFrame :=
  [ ("Ministry Name",
      map CStr ["a"; "b"; "c"; "d"; "e"; "f"; "g"; "h"; "i"; "j"; "k"; "l"]);
    ("Start Year", repeat (CInt 2016) 12);
    ("Total Budget (INR Cr)",
      map CFloat [5; 12; 1; 7; 3; 9; 11; 2; 8; 4; 10; 6]%Q) ].

(** ** Notions the properties are stated with *)

(** What cleaning is meant to do to one financial cell: the placeholders,
    a missing value and text that is no number become zero, other text
    becomes its number, numbers stay. *)
Definition clean_cell {L : Libraries} (c : cell) : cell :=
  match c with
  | CStr t =>
      if String.eqb t "-" || String.eqb t "NA" then CFloat 0
      else match to_numeric_text t with Some q => CFloat q | None => CFloat 0 end
  | CNaN => CFloat 0
  | _ => c
  end.

(** Every column has as many cells as the table has rows; pandas holds no
    other tables. *)
Definition rectangular (df : DataFrame) : Prop :=
  Forall (fun cs => length (snd cs) = nrows df) df.

Definition no_dash (s : string) : Prop :=
  forall i, String.get i s <> Some "-"%char.

(** The two derived columns. *)
Definition Start_Year : string := "Start Year".
Definition Total_Budget : string := "Total Budget (INR Cr)".

(** The sample table, cleaned. *)
Definition sample_cleaned : DataFrame :=
  Eval vm_compute in
    match load_and_clean_data (L := exact_sums) read_sample file_path with
    | Ok df => df
    | Raise _ => []
    end.

(** The total budget of a row, as a number. *)
Definition amount (r : row) : Q :=
  match cell_value (field Total_Budget r) with
  | Some q => q
  | None => 0%Q
  end.


(** The sums [groupby(...).sum()] makes of the groups, one per key. *)
Definition group_sums {L : Libraries} (ks : list Z) (keys vals : Series)
  : list Q :=
  map (fun k => group_sum_values (group_values k keys vals)) ks.

Definition no_text (s : Series) : Prop :=
  Forall (fun c => is_text c = false) s.

(** What the aggregations need of a table: the key column, and the three
    amount columns free of text. *)
Definition summable (df : DataFrame) : Prop :=
  lookup Start_Year df <> None
  /\ forall c, In c [Total_Budget; "Total (Plan)"; "Total (Non-Plan)"] ->
       exists s, lookup c df = Some s /\ no_text s.

(** Rows of the long table for a year and a category, and rows of a
    table for a year. *)
Definition in_year (y : Z) (r : row) : bool :=
  cell_eqb (field Start_Year r) (CInt y).

Definition is_pair (y : Z) (category : string) (r : row) : bool :=
  in_year y r && cell_eqb (field "Type" r) (CStr category).

Definition count_rows (p : row -> bool) (df : DataFrame) : nat :=
  length (filter p (rows df)).

(** The long row made from a row of the filtered table and a category. *)
Definition long_row (category : string) (r : row) : row :=
  [ (Start_Year, field Start_Year r);
    ("Type", CStr category);
    ("Amount", field category r) ].



Definition sample_no_total_plan : DataFrame :=
  filter (fun cs => negb (String.eqb (fst cs) "Total (Plan)")) sample.

Definition read_no_total_plan (path : string) : result DataFrame :=
  if String.eqb path "Budget.csv" then Ok sample_no_total_plan
  else Raise FileNotFoundError.



(** Text next to something that is no text: what [sorted] cannot order. *)
Definition mixed (l : list cell) : bool :=
  existsb is_text l && existsb (fun c => negb (is_text c)) l.

(** Three ministries in one year, with the budgets 0.1, 0.2 and 0.3 as
    [pd.read_csv] holds them: the nearest binary64 numbers. *)
Definition tenth : Q := 3602879701896397 # 36028797018963968.
Definition two_tenths : Q := 3602879701896397 # 18014398509481984.
Definition three_tenths : Q := 5404319552844595 # 18014398509481984.





Section Facts.
Context {L : Libraries}.

(** ** Columns: reading and assigning *)

Lemma lookup_setitem_same (df : DataFrame) (c : string) (s : Series) :
  lookup c (setitem df c s) = Some s.
Proof.
  induction df as [|[c' s'] df IH]; simpl.
  - now rewrite String.eqb_refl.
  - destruct (String.eqb c c') eqn:E; simpl; rewrite E; auto.
Qed.

Lemma lookup_setitem_other (df : DataFrame) (c c' : string) (s : Series) :
  c <> c' -> lookup c' (setitem df c s) = lookup c' df.
Proof.
  intros Hne.
  induction df as [|[d s'] df IH]; simpl.
  - apply String.eqb_neq in Hne. rewrite String.eqb_sym in Hne. now rewrite Hne.
  - destruct (String.eqb c d) eqn:E; simpl.
    + apply String.eqb_eq in E. subst d.
      apply String.eqb_neq in Hne. rewrite String.eqb_sym in Hne.
      now rewrite Hne.
    + now rewrite IH.
Qed.

Lemma setitem_setitem (df : DataFrame) (c : string) (s t : Series) :
  setitem (setitem df c s) c t = setitem df c t.
Proof.
  induction df as [|[d s'] df IH]; simpl.
  - now rewrite String.eqb_refl.
  - destruct (String.eqb c d) eqn:E; simpl; rewrite E; congruence.
Qed.

Lemma columns_setitem_present (df : DataFrame) (c : string) (s : Series) :
  lookup c df <> None -> columns (setitem df c s) = columns df.
Proof.
  unfold columns.
  induction df as [|[d s'] df IH]; simpl; intros H.
  - congruence.
  - destruct (String.eqb c d) eqn:E; simpl; [reflexivity|].
    f_equal. now apply IH.
Qed.

Lemma columns_setitem_absent (df : DataFrame) (c : string) (s : Series) :
  lookup c df = None -> columns (setitem df c s) = columns df ++ [c].
Proof.
  unfold columns.
  induction df as [|[d s'] df IH]; simpl; intros H.
  - reflexivity.
  - destruct (String.eqb c d) eqn:E; simpl; [discriminate|].
    f_equal. now apply IH.
Qed.

Lemma lookup_None_iff (df : DataFrame) (c : string) :
  lookup c df = None <-> ~ In c (columns df).
Proof.
  unfold columns.
  induction df as [|[d s'] df IH]; simpl.
  - tauto.
  - destruct (String.eqb c d) eqn:E.
    + apply String.eqb_eq in E. subst. split; [discriminate|tauto].
    + apply String.eqb_neq in E. rewrite IH. split.
      * intros H [H'|H']; [congruence|tauto].
      * tauto.
Qed.

Lemma getitem_Ok (df : DataFrame) (c : string) (s : Series) :
  getitem df c = Ok s <-> lookup c df = Some s.
Proof.
  unfold getitem. destruct (lookup c df); split; congruence.
Qed.

(** ** The cleaning loop *)

Lemma clean_cell_steps (s : Series) :
  fillna 0 (to_numeric_coerce (replace [("-", CNaN); ("NA", CNaN)] s))
  = map clean_cell s.
Proof.
  unfold fillna, to_numeric_coerce, replace.
  rewrite !map_map. apply map_ext. intros [t|z|q|]; simpl; try reflexivity.
  destruct (String.eqb t "-"); simpl; [reflexivity|].
  destruct (String.eqb t "NA"); simpl; [reflexivity|].
  destruct (to_numeric_text t); reflexivity.
Qed.

Lemma clean_column_eq (df : DataFrame) (col : string) :
  clean_column df col =
  match lookup col df with
  | Some s => Ok (setitem df col (map clean_cell s))
  | None => Raise (KeyError col)
  end.
Proof.
  unfold clean_column, getitem.
  destruct (lookup col df) as [s|]; simpl; [|reflexivity].
  rewrite lookup_setitem_same; simpl.
  rewrite lookup_setitem_same; simpl.
  now rewrite !setitem_setitem, clean_cell_steps.
Qed.

Lemma clean_cell_numeric (c : cell) : is_numeric (clean_cell c) = true.
Proof.
  destruct c as [t|z|q|]; simpl; try reflexivity.
  destruct (String.eqb t "-" || String.eqb t "NA"); [reflexivity|].
  destruct (to_numeric_text t); reflexivity.
Qed.

Lemma clean_loop (cols : list string) :
  NoDup cols ->
  forall df df',
    for_each cols clean_column df = Ok df' ->
    columns df' = columns df
    /\ (forall c, ~ In c cols -> lookup c df' = lookup c df)
    /\ (forall c, In c cols ->
          exists s, lookup c df = Some s
                    /\ lookup c df' = Some (map clean_cell s)).
Proof.
  induction 1 as [|col cols Hnotin Hnd IH]; simpl; intros df df' H.
  - inversion H; subst. repeat split; auto. intros c [].
  - rewrite clean_column_eq in H.
    destruct (lookup col df) as [s|] eqn:Hcol; simpl in H; [|discriminate].
    destruct (IH _ _ H) as (Hc & Hout & Hin).
    split; [|split].
    + rewrite Hc. apply columns_setitem_present. congruence.
    + intros c Hc'. rewrite Hout by tauto.
      apply lookup_setitem_other. intros ->. tauto.
    + intros c [->|Hc'].
      * exists s. split; [assumption|].
        rewrite Hout by assumption. apply lookup_setitem_same.
      * destruct (Hin c Hc') as (s' & Hs' & Hs'').
        exists s'. split; [|assumption].
        rewrite <- Hs'. symmetry. apply lookup_setitem_other.
        intros ->. tauto.
Qed.

Lemma clean_loop_total (cols : list string) :
  forall df,
    (forall c, In c cols -> lookup c df <> None) ->
    exists df', for_each cols clean_column df = Ok df'.
Proof.
  induction cols as [|col cols IH]; simpl; intros df H.
  - eauto.
  - rewrite clean_column_eq.
    destruct (lookup col df) as [s|] eqn:Hcol; simpl.
    + apply IH. intros c Hc.
      destruct (String.eqb col c) eqn:E.
      * apply String.eqb_eq in E. subst. rewrite lookup_setitem_same. discriminate.
      * apply String.eqb_neq in E. rewrite lookup_setitem_other by assumption.
        apply H. tauto.
    + exfalso. apply (H col); tauto.
Qed.

Lemma finance_cols_NoDup : NoDup finance_cols.
Proof.
  unfold finance_cols.
  repeat (constructor; [simpl; intuition discriminate|]). constructor.
Qed.

(** ** Results *)

Lemma bind_Ok {A B : Type} (m : result A) (k : A -> result B) (b : B) :
  bind m k = Ok b -> exists a, m = Ok a /\ k a = Ok b.
Proof.
  destruct m as [a|e]; simpl; intros H; [eauto|discriminate].
Qed.

Lemma map_result_Ok {A B : Type} (f : A -> result B) (xs : list A) :
  forall ys, map_result f xs = Ok ys -> Forall2 (fun x y => f x = Ok y) xs ys.
Proof.
  induction xs as [|x xs IH]; simpl; intros ys H.
  - inversion H. constructor.
  - apply bind_Ok in H. destruct H as (y & Hy & H).
    apply bind_Ok in H. destruct H as (ys' & Hys & H).
    inversion H; subst. constructor; auto.
Qed.


Lemma map_result_Raise {A B : Type} (f : A -> result B) (xs : list A) :
  Exists (fun x => exists e, f x = Raise e) xs ->
  exists x e, In x xs /\ f x = Raise e /\ map_result f xs = Raise e.
Proof.
  induction xs as [|x xs IH]; intros H.
  - inversion H.
  - simpl. destruct (f x) as [y|e] eqn:Hx; simpl.
    + inversion H as [? ? [e He]|? ? H']; subst; [congruence|].
      destruct (IH H') as (x' & e & Hin & Hf & Hm).
      exists x', e. rewrite Hm. simpl. auto.
    + exists x, e. auto.
Qed.

Lemma Forall2_nth_error {A B : Type} (R : A -> B -> Prop)
  (xs : list A) (ys : list B) :
  Forall2 R xs ys ->
  forall i x, nth_error xs i = Some x ->
              exists y, nth_error ys i = Some y /\ R x y.
Proof.
  induction 1 as [|x0 y0 xs ys H0 H IH]; intros [|i] x Hx; simpl in *;
    try discriminate.
  - inversion Hx; subst. eauto.
  - eauto.
Qed.

(** ** What [load_and_clean_data] returns *)

Lemma load_and_clean_data_inv (read_csv : string -> result DataFrame)
  (path : string) (df : DataFrame) :
  load_and_clean_data read_csv path = Ok df ->
  exists raw cleaned years start total,
    read_csv path = Ok raw
    /\ for_each finance_cols clean_column raw = Ok cleaned
    /\ lookup "Year" cleaned = Some years
    /\ map_result start_year_of years = Ok start
    /\ lookup "Total Plan & Non-Plan" cleaned = Some total
    /\ df = setitem (setitem cleaned Start_Year start) Total_Budget total.
Proof.
  unfold load_and_clean_data. intros H.
  apply bind_Ok in H. destruct H as (raw & Hraw & H).
  apply bind_Ok in H. destruct H as (cleaned & Hcl & H).
  apply bind_Ok in H. destruct H as (years & Hy & H).
  apply bind_Ok in H. destruct H as (start & Hs & H).
  apply bind_Ok in H. destruct H as (total & Ht & H).
  inversion H; subst df.
  apply getitem_Ok in Hy, Ht.
  rewrite lookup_setitem_other in Ht by discriminate.
  exists raw, cleaned, years, start, total. auto 10.
Qed.

Lemma load_and_clean_data_spec (read_csv : string -> result DataFrame)
  (path : string) (df : DataFrame) :
  load_and_clean_data read_csv path = Ok df ->
  exists raw years start,
    read_csv path = Ok raw
    /\ lookup "Year" raw = Some years
    /\ Forall2 (fun x y => start_year_of x = Ok y) years start
    /\ lookup Start_Year df = Some start
    /\ (forall c, In c finance_cols ->
          exists s, lookup c raw = Some s
                    /\ lookup c df = Some (map clean_cell s))
    /\ lookup Total_Budget df = lookup "Total Plan & Non-Plan" df
    /\ (forall c, ~ In c finance_cols -> c <> Start_Year ->
                  c <> Total_Budget -> lookup c df = lookup c raw)
    /\ (forall s t, columns df
                    = columns (setitem (setitem raw Start_Year s)
                                 Total_Budget t)).
Proof.
  intros H.
  destruct (load_and_clean_data_inv _ _ _ H)
    as (raw & cleaned & years & start & total & Hraw & Hcl & Hy & Hs & Ht & ->).
  destruct (clean_loop _ finance_cols_NoDup _ _ Hcl) as (Hcols & Hout & Hin).
  exists raw, years, start. repeat split.
  - assumption.
  - rewrite <- Hy. symmetry. apply Hout. simpl. intuition discriminate.
  - now apply map_result_Ok.
  - rewrite lookup_setitem_other by discriminate. apply lookup_setitem_same.
  - intros c Hc. destruct (Hin c Hc) as (s & Hs1 & Hs2).
    exists s. split; [assumption|].
    rewrite !lookup_setitem_other; [assumption| |].
    + intros <-. revert Hc. simpl. intuition discriminate.
    + intros <-. revert Hc. simpl. intuition discriminate.
  - rewrite lookup_setitem_same.
    rewrite !lookup_setitem_other by discriminate. now symmetry.
  - intros c Hc H1 H2.
    rewrite !lookup_setitem_other by congruence. now apply Hout.
  - intros s t.
    assert (Hcongr : forall (a b : DataFrame) c u v,
               columns a = columns b ->
               columns (setitem a c u) = columns (setitem b c v)).
    { intros a b c u v Hab.
      destruct (lookup c a) eqn:Ea.
      - rewrite columns_setitem_present by congruence.
        assert (lookup c b <> None).
        { intros Hb. apply lookup_None_iff in Hb. rewrite <- Hab in Hb.
          apply lookup_None_iff in Hb. congruence. }
        now rewrite columns_setitem_present.
      - rewrite columns_setitem_absent by assumption.
        assert (lookup c b = None).
        { apply lookup_None_iff. rewrite <- Hab. now apply lookup_None_iff. }
        rewrite columns_setitem_absent by assumption. now f_equal. }
    apply Hcongr, Hcongr. assumption.
Qed.


Lemma load_and_clean_data_malformed (read_csv : string -> result DataFrame)
  (path : string) (raw : DataFrame) (years : Series) :
  read_csv path = Ok raw ->
  (forall c, In c finance_cols -> lookup c raw <> None) ->
  lookup "Year" raw = Some years ->
  Exists (fun x => exists e, start_year_of x = Raise e) years ->
  exists x e, In x years /\ start_year_of x = Raise e
              /\ load_and_clean_data read_csv path = Raise e.
Proof.
  intros Hraw Hfin Hy Hyears.
  unfold load_and_clean_data. rewrite Hraw; cbn [bind].
  destruct (clean_loop_total finance_cols raw Hfin) as (cleaned & Hcl).
  rewrite Hcl; cbn [bind].
  destruct (clean_loop _ finance_cols_NoDup _ _ Hcl) as (_ & Hout & _).
  unfold getitem at 1.
  rewrite Hout, Hy by (simpl; intuition discriminate). cbn [bind].
  destruct (map_result_Raise _ _ Hyears) as (x & e & Hx & He & Hm).
  unfold series_apply. rewrite Hm; cbn [bind]. eauto.
Qed.

Lemma start_year_of_Raise (x : cell) (e : exn) :
  start_year_of x = Raise e -> e = ValueError \/ e = AttributeError.
Proof.
  destruct x as [s|z|q|]; simpl; intros H.
  - destruct (py_int (before_dash s)); inversion H; auto.
  - inversion H; auto.
  - inversion H; auto.
  - inversion H; auto.
Qed.

(** Text before the first dash. *)
Lemma before_dash_app (pre suf : string) :
  no_dash pre -> before_dash (pre ++ String "-" suf)%string = pre.
Proof.
  induction pre as [|c pre IH]; simpl; intros H.
  - reflexivity.
  - assert (Hc : is_dash c = false).
    { unfold is_dash. apply Ascii.eqb_neq. intros ->. now apply (H O). }
    rewrite Hc. f_equal. apply IH. intros i. apply (H (S i)).
Qed.

(** ** Shape *)

Lemma lookup_In (df : DataFrame) (c : string) (s : Series) :
  lookup c df = Some s -> In (c, s) df.
Proof.
  induction df as [|[d s'] df IH]; simpl; [discriminate|].
  destruct (String.eqb c d) eqn:E.
  - apply String.eqb_eq in E. subst. inversion 1. auto.
  - auto.
Qed.

Lemma rectangular_lookup (df : DataFrame) (c : string) (s : Series) :
  rectangular df -> lookup c df = Some s -> length s = nrows df.
Proof.
  intros Hr Hl. apply lookup_In in Hl.
  unfold rectangular in Hr. rewrite Forall_forall in Hr.
  apply (Hr _ Hl).
Qed.

Lemma Forall_setitem (n : nat) (df : DataFrame) (c : string) (s : Series) :
  Forall (fun cs => length (snd cs) = n) df -> length s = n ->
  Forall (fun cs => length (snd cs) = n) (setitem df c s).
Proof.
  induction 1 as [|[d s'] df Hd Hdf IH]; simpl; intros Hs.
  - auto.
  - destruct (String.eqb c d); constructor; auto.
Qed.

Lemma rectangular_setitem (df : DataFrame) (c : string) (s : Series) :
  rectangular df -> df <> [] -> length s = nrows df ->
  nrows (setitem df c s) = nrows df /\ rectangular (setitem df c s).
Proof.
  intros Hr Hne Hs.
  assert (Hn : nrows (setitem df c s) = nrows df).
  { destruct df as [|[d s'] df]; [congruence|]. simpl.
    destruct (String.eqb c d); simpl; auto. }
  split; [assumption|].
  unfold rectangular. rewrite Hn. now apply Forall_setitem.
Qed.

Lemma setitem_nonempty (df : DataFrame) (c : string) (s : Series) :
  setitem df c s <> [].
Proof.
  destruct df as [|[d s'] df]; simpl; [discriminate|].
  destruct (String.eqb c d); discriminate.
Qed.

Lemma clean_loop_shape (cols : list string) :
  forall df df',
    for_each cols clean_column df = Ok df' ->
    rectangular df -> nrows df' = nrows df /\ rectangular df'.
Proof.
  induction cols as [|col cols IH]; simpl; intros df df' H Hr.
  - inversion H; subst; auto.
  - rewrite clean_column_eq in H.
    destruct (lookup col df) as [s|] eqn:Hcol; simpl in H; [|discriminate].
    destruct (rectangular_setitem df col (map clean_cell s)) as (Hn & Hr').
    + assumption.
    + intros ->. discriminate.
    + rewrite length_map. eapply rectangular_lookup; eauto.
    + destruct (IH _ _ H Hr') as (Hn' & Hr''). split; congruence.
Qed.

Lemma Forall2_length' {A B : Type} (R : A -> B -> Prop) xs ys :
  Forall2 R xs ys -> length ys = length xs.
Proof. induction 1; simpl; congruence. Qed.

Lemma load_and_clean_data_shape (read_csv : string -> result DataFrame)
  (path : string) (raw df : DataFrame) :
  read_csv path = Ok raw -> rectangular raw ->
  load_and_clean_data read_csv path = Ok df ->
  nrows df = nrows raw /\ rectangular df.
Proof.
  intros Hraw Hr H.
  destruct (load_and_clean_data_inv _ _ _ H)
    as (raw' & cleaned & years & start & total & Hraw' & Hcl & Hy & Hs & Ht & ->).
  assert (raw' = raw) by congruence. subst raw'.
  destruct (clean_loop_shape _ _ _ Hcl Hr) as (Hn & Hrc).
  assert (Hne : cleaned <> []) by (intros ->; discriminate).
  destruct (rectangular_setitem cleaned Start_Year start Hrc Hne) as (Hn1 & Hr1).
  { rewrite (Forall2_length' _ _ _ (map_result_Ok _ _ _ Hs)).
    eapply rectangular_lookup; eauto. }
  destruct (rectangular_setitem (setitem cleaned Start_Year start)
              Total_Budget total Hr1) as (Hn2 & Hr2).
  { apply setitem_nonempty. }
  { rewrite Hn1. eapply rectangular_lookup; eauto. }
  split; [congruence|assumption].
Qed.

(** ** Cleaning: the financial columns *)

(** C2.  After [load_and_clean_data], every cell of each of the seven
    financial columns is a number (no text, no missing value), cell by
    cell from the column as loaded: the placeholders "-" and "NA", a
    missing value and text that [pd.to_numeric] does not convert become
    0.0; a number stays; text that converts becomes the number it converts
    to, which for a plain decimal is the number written.  In particular a
    "Revenue (Plan)" cell "-" is cleaned to 0.0. *)
Theorem finance_columns_numeric_after_cleaning
  (read_csv : string -> result DataFrame) (path : string) (df : DataFrame) :
  load_and_clean_data read_csv path = Ok df ->
  forall col, In col finance_cols ->
    exists raw before after,
      read_csv path = Ok raw
      /\ lookup col raw = Some before
      /\ getitem df col = Ok after
      /\ Forall (fun y => is_numeric y = true) after
      /\ length after = length before
      /\ forall i x, nth_error before i = Some x ->
           exists y,
             nth_error after i = Some y
             /\ is_numeric y = true
             /\ (x = CStr "-" \/ x = CStr "NA" \/ x = CNaN
                 \/ (exists t, x = CStr t /\ to_numeric_text t = None) ->
                 y = CFloat 0)
             /\ (is_numeric x = true -> y = x)
             /\ (forall t q, x = CStr t -> t <> "-" -> t <> "NA" ->
                             to_numeric_text t = Some q -> y = CFloat q)
             /\ (forall t q, x = CStr t -> plain_decimal t = Some q ->
                             y = CFloat q).
Proof.
  intros H col Hcol.
  destruct (load_and_clean_data_spec _ _ _ H)
    as (raw & years & start & Hraw & _ & _ & _ & Hfin & _).
  destruct (Hfin col Hcol) as (before & Hb & Ha).
  exists raw, before, (map clean_cell before).
  split; [assumption|]. split; [assumption|].
  split; [now apply getitem_Ok|].
  split; [apply Forall_map, Forall_forall; intros; apply clean_cell_numeric|].
  split; [apply length_map|].
  intros i x Hx. exists (clean_cell x).
  split; [now apply map_nth_error|].
  split; [apply clean_cell_numeric|].
  split; [|split; [|split]].
  - intros [->|[->|[->|(t & -> & Ht)]]]; try reflexivity.
    simpl. rewrite Ht. now destruct (_ || _).
  - destruct x; simpl; congruence.
  - intros t q -> H1 H2 Hq. simpl.
    apply String.eqb_neq in H1, H2. now rewrite H1, H2, Hq.
  - intros t q -> Hq. simpl.
    assert (H1 : String.eqb t "-" = false).
    { apply String.eqb_neq. intros ->. discriminate. }
    assert (H2 : String.eqb t "NA" = false).
    { apply String.eqb_neq. intros ->. discriminate. }
    rewrite H1, H2. unfold to_numeric_text. now rewrite Hq.
Qed.

(** ** Cleaning: the derived columns *)

(** C7.  In the cleaned table "Start Year" holds, row by row, the integer
    [int()] reads from the text before the first "-" of "Year", and
    "Total Budget (INR Cr)" is the cleaned "Total Plan & Non-Plan" column
    itself.  A row with Year "2015-2016" and Total Plan & Non-Plan "1234.5"
    has Start Year 2015 and Total Budget 1234.5 (= 2469/2). *)
Theorem derived_columns
  (read_csv : string -> result DataFrame) (path : string) (df : DataFrame) :
  load_and_clean_data read_csv path = Ok df ->
  exists raw years raw_total start total,
    read_csv path = Ok raw
    /\ lookup "Year" raw = Some years
    /\ lookup "Total Plan & Non-Plan" raw = Some raw_total
    /\ getitem df "Year" = Ok years
    /\ getitem df Start_Year = Ok start
    /\ getitem df "Total Plan & Non-Plan" = Ok total
    /\ getitem df Total_Budget = Ok total
    /\ length start = length years
    /\ (forall i pre suf y,
          nth_error years i = Some (CStr (pre ++ String "-" suf)%string) ->
          no_dash pre -> py_int pre = Some y ->
          nth_error start i = Some (CInt y))
    /\ (forall i,
          nth_error years i = Some (CStr "2015-2016") ->
          nth_error raw_total i = Some (CStr "1234.5") ->
          nth_error start i = Some (CInt 2015)
          /\ nth_error total i = Some (CFloat (2469 # 2))).
Proof.
  intros H.
  destruct (load_and_clean_data_spec _ _ _ H)
    as (raw & years & start & Hraw & Hy & Hst & Hsy & Hfin & Htb & Hout & _).
  destruct (Hfin "Total Plan & Non-Plan") as (raw_total & Hrt & Ht);
    [simpl; tauto|].
  assert (Hrow : forall i s y,
             nth_error years i = Some (CStr s) ->
             py_int (before_dash s) = Some y ->
             nth_error start i = Some (CInt y)).
  { intros i s y Hi Hp.
    destruct (Forall2_nth_error _ _ _ Hst _ _ Hi) as (c & Hc & Hs).
    simpl in Hs. rewrite Hp in Hs. congruence. }
  exists raw, years, raw_total, start, (map clean_cell raw_total).
  split; [assumption|]. split; [assumption|]. split; [assumption|].
  split.
  { apply getitem_Ok. rewrite <- Hy. apply Hout; try discriminate.
    simpl. intuition discriminate. }
  split; [now apply getitem_Ok|].
  split; [now apply getitem_Ok|].
  split; [apply getitem_Ok; rewrite Htb; exact Ht|].
  split; [apply (Forall2_length' _ _ _ Hst)|].
  split.
  - intros i pre suf y Hi Hnd Hp.
    apply (Hrow i _ y Hi). now rewrite before_dash_app.
  - intros i Hi Hti. split.
    + apply (Hrow i _ 2015 Hi). reflexivity.
    + now apply (map_nth_error clean_cell) in Hti.
Qed.

(** ** Cleaning: what it leaves alone *)


(** ** Rows *)

Lemma map_nth_seq {A : Type} (l : list A) (d : A) :
  map (fun j => nth j l d) (seq 0 (length l)) = l.
Proof.
  apply nth_ext with (d := nth 0 l d) (d' := d).
  - now rewrite length_map, length_seq.
  - intros n Hn. rewrite length_map, length_seq in Hn.
    rewrite (map_nth (fun j => nth j l d)). now rewrite seq_nth.
Qed.

Lemma nth_map_in {A B : Type} (f : A -> B) (l : list A) (i : nat)
  (d : A) (d' : B) :
  (i < length l)%nat -> nth i (map f l) d' = f (nth i l d).
Proof.
  intros Hi. rewrite (nth_indep _ d' (f d)) by now rewrite length_map.
  apply map_nth.
Qed.

Lemma length_rows (df : DataFrame) : length (rows df) = nrows df.
Proof. unfold rows. now rewrite length_map, length_seq. Qed.

Lemma field_iloc (df : DataFrame) (c : string) (s : Series) (i : nat) :
  lookup c df = Some s -> field c (iloc df i) = nth i s CNaN.
Proof.
  induction df as [|[d s'] df IH]; simpl; [discriminate|].
  destruct (String.eqb c d); [now inversion 1|assumption].
Qed.

Lemma nrows_take (idx : list nat) (df : DataFrame) :
  df <> [] -> nrows (take idx df) = length idx.
Proof.
  destruct df as [|[d s] df]; [congruence|]. intros _. simpl.
  unfold series_take. apply length_map.
Qed.

Lemma rectangular_take (idx : list nat) (df : DataFrame) :
  rectangular (take idx df).
Proof.
  destruct df as [|cs df]; [constructor|].
  unfold rectangular. rewrite nrows_take by discriminate.
  unfold take. apply Forall_map, Forall_forall. intros x _. simpl.
  unfold series_take. apply length_map.
Qed.

Lemma lookup_take (c : string) (idx : list nat) (df : DataFrame) :
  lookup c (take idx df) = option_map (series_take idx) (lookup c df).
Proof.
  induction df as [|[d s] df IH]; simpl; [reflexivity|].
  destruct (String.eqb c d); [reflexivity|assumption].
Qed.

Lemma columns_take (idx : list nat) (df : DataFrame) :
  columns (take idx df) = columns df.
Proof. unfold columns, take. rewrite map_map. reflexivity. Qed.

Lemma columns_head (n : nat) (df : DataFrame) :
  columns (head n df) = columns df.
Proof. unfold columns, head. rewrite map_map. reflexivity. Qed.

Lemma iloc_take (idx : list nat) (df : DataFrame) (j : nat) :
  (j < length idx)%nat -> iloc (take idx df) j = iloc df (nth j idx O).
Proof.
  intros Hj. unfold iloc, take. rewrite map_map. apply map_ext.
  intros [c s]. simpl. f_equal. unfold series_take.
  now apply (nth_map_in (fun i => nth i s CNaN)).
Qed.

Lemma rows_take (idx : list nat) (df : DataFrame) :
  df <> [] -> rows (take idx df) = map (iloc df) idx.
Proof.
  intros Hne. unfold rows. rewrite nrows_take by assumption.
  transitivity
    (map (iloc df) (map (fun j => nth j idx O) (seq 0 (length idx)))).
  - rewrite map_map. apply map_ext_in. intros j Hj. apply in_seq in Hj.
    apply iloc_take. lia.
  - now rewrite map_nth_seq.
Qed.

Lemma filter_filter {A : Type} (p q : A -> bool) (l : list A) :
  filter q (filter p l) = filter (fun x => p x && q x) l.
Proof.
  induction l as [|x l IH]; simpl; [reflexivity|].
  destruct (p x); simpl; [destruct (q x)|]; congruence.
Qed.

(** ** Filters *)

Lemma rows_getitem_bool (df : DataFrame) (c : string) (col : Series)
  (v : cell) :
  rectangular df -> lookup c df = Some col ->
  rows (getitem_bool df (series_eq col v))
  = filter (fun r => cell_eqb (field c r) v) (rows df).
Proof.
  intros Hr Hc.
  assert (Hne : df <> []) by (intros ->; discriminate).
  assert (Hlen : length col = nrows df) by (eapply rectangular_lookup; eauto).
  unfold getitem_bool. rewrite rows_take by assumption.
  unfold rows at 1, nonzero, series_eq.
  rewrite filter_map_swap, length_map, Hlen. f_equal.
  apply filter_ext_in. intros i Hi. apply in_seq in Hi.
  rewrite (field_iloc _ _ _ _ Hc).
  apply (nth_map_in (fun x => cell_eqb x v)). lia.
Qed.

Lemma filter_none {A : Type} (p : A -> bool) (l : list A) :
  (forall x, In x l -> p x = false) -> filter p l = [].
Proof.
  induction l as [|x l IH]; simpl; intros H; [reflexivity|].
  rewrite (H x) by auto. apply IH. auto.
Qed.

(** C5.  On a table that has the columns "Ministry Name" and
    "Start Year", the filter returns, without raising, the rows (in their
    original order) that pass every active test: "Ministry Name" equal to
    the selected ministry unless the selector is "All Ministries", and
    "Start Year" equal to the selected year unless it is "All Years".  When
    no row passes, the result is the table with no rows. *)
Theorem df_filtered_exact (df : DataFrame) (ministry year : cell) :
  rectangular df ->
  lookup "Ministry Name" df <> None ->
  lookup Start_Year df <> None ->
  exists out,
    df_filtered df ministry year = Ok out
    /\ rows out = filter (row_selected ministry year) (rows df)
    /\ columns out = columns df
    /\ ((forall r, In r (rows df) -> row_selected ministry year r = false) ->
        rows out = [] /\ nrows out = O /\ empty out = true).
Proof.
  intros Hr Hm Hy.
  destruct (lookup "Ministry Name" df) as [names|] eqn:Hnames; [|congruence].
  destruct (lookup Start_Year df) as [years|] eqn:Hyears; [|congruence].
  assert (Hne : df <> []) by (intros ->; discriminate).
  assert (Hgoal : exists out,
             df_filtered df ministry year = Ok out
             /\ rows out = filter (row_selected ministry year) (rows df)
             /\ columns out = columns df).
  { unfold df_filtered, row_selected, getitem.
    destruct (py_ne ministry All_Ministries); cbn [bind].
    - rewrite Hnames; cbn [bind].
      destruct (py_ne year All_Years); cbn [bind].
      + fold Start_Year.
        assert (Hy' : lookup Start_Year
                        (getitem_bool df (series_eq names ministry))
                      = Some (series_take
                                (nonzero (series_eq names ministry)) years)).
        { unfold getitem_bool. now rewrite lookup_take, Hyears. }
        rewrite Hy'. cbn [bind].
        eexists. split; [reflexivity|]. split.
        * assert (Hr' : rectangular
                          (getitem_bool df (series_eq names ministry)))
            by apply rectangular_take.
          rewrite (rows_getitem_bool _ _ _ _ Hr' Hy').
          rewrite (rows_getitem_bool _ _ _ _ Hr Hnames).
          apply filter_filter.
        * unfold getitem_bool. now rewrite !columns_take.
      + eexists. split; [reflexivity|]. split.
        * rewrite (rows_getitem_bool _ _ _ _ Hr Hnames).
          apply filter_ext. intros r. now rewrite andb_true_r.
        * unfold getitem_bool. now rewrite columns_take.
    - destruct (py_ne year All_Years); cbn [bind].
      + fold Start_Year. rewrite Hyears. cbn [bind].
        eexists. split; [reflexivity|]. split.
        * now rewrite (rows_getitem_bool _ _ _ _ Hr Hyears).
        * unfold getitem_bool. now rewrite columns_take.
      + exists df. split; [reflexivity|]. split; [|reflexivity].
        simpl. symmetry. apply filter_true. }
  destruct Hgoal as (out & Hout & Hrows & Hcols).
  exists out. repeat split; try assumption.
  - rewrite Hrows. now apply filter_none.
  - rewrite <- length_rows, Hrows, filter_none by assumption. reflexivity.
  - unfold empty. rewrite <- length_rows, Hrows, filter_none by assumption.
    apply orb_true_r.
Qed.

(** C6.  With both selectors at their sentinels the filter returns the
    table it was given: the same columns, rows and order. *)
Theorem df_filtered_all_all (df : DataFrame) :
  exists out,
    df_filtered df All_Ministries All_Years = Ok out
    /\ out = df
    /\ rows out = rows df.
Proof.
  exists df. repeat split.
Qed.

(** ** Sorting *)

Lemma desc_before_total (a b : option Q) :
  desc_before a b = false -> desc_before b a = true.
Proof.
  destruct a as [x|], b as [y|]; simpl; try congruence.
  intros H. apply Qle_bool_iff. apply Qlt_le_weak, Qnot_le_lt.
  intros Hle. apply Qle_bool_iff in Hle. congruence.
Qed.

Lemma desc_before_trans (a b c : option Q) :
  desc_before a b = true -> desc_before b c = true -> desc_before a c = true.
Proof.
  destruct a as [x|], b as [y|], c as [z|]; simpl; try congruence.
  rewrite !Qle_bool_iff. intros H1 H2. eapply Qle_trans; eauto.
Qed.

Section ArgsortFacts.
Variable key : nat -> option Q.

Let before (i j : nat) : Prop := desc_before (key i) (key j) = true.

Lemma insert_index_perm (i : nat) (l : list nat) :
  Permutation (i :: l) (insert_index key i l).
Proof.
  induction l as [|j l IH]; simpl; [reflexivity|].
  destruct (desc_before (key i) (key j)); [reflexivity|].
  rewrite perm_swap. now constructor.
Qed.

Lemma argsort_desc_perm (n : nat) :
  Permutation (seq 0 n) (argsort_desc key n).
Proof.
  unfold argsort_desc. induction (seq 0 n) as [|i l IH]; simpl.
  - constructor.
  - rewrite <- insert_index_perm. now constructor.
Qed.

Lemma insert_index_sorted (i : nat) (l : list nat) :
  StronglySorted before l -> StronglySorted before (insert_index key i l).
Proof.
  induction 1 as [|j l Hs IH Hj]; simpl.
  - repeat constructor.
  - destruct (desc_before (key i) (key j)) eqn:E.
    + constructor; [now constructor|].
      constructor; [exact E|].
      revert Hj. apply Forall_impl. intros k Hk.
      eapply desc_before_trans; eauto.
    + constructor; [assumption|].
      rewrite <- insert_index_perm. constructor; [|assumption].
      now apply desc_before_total.
Qed.

Lemma argsort_desc_sorted (n : nat) :
  StronglySorted before (argsort_desc key n).
Proof.
  unfold argsort_desc. induction (seq 0 n) as [|i l IH]; simpl.
  - constructor.
  - now apply insert_index_sorted.
Qed.
End ArgsortFacts.

Lemma StronglySorted_map_in {A B : Type} (R : A -> A -> Prop)
  (R' : B -> B -> Prop) (f : A -> B) (l : list A) :
  (forall x y, In x l -> In y l -> R x y -> R' (f x) (f y)) ->
  StronglySorted R l -> StronglySorted R' (map f l).
Proof.
  intros Hf Hs. induction Hs as [|x l Hs IH Hx]; simpl; constructor.
  - apply IH. intros; apply Hf; simpl; auto.
  - apply Forall_map. rewrite Forall_forall in *.
    intros y Hy. apply Hf; simpl; auto.
Qed.

Lemma StronglySorted_app_inv {A : Type} (R : A -> A -> Prop)
  (l1 l2 : list A) :
  StronglySorted R (l1 ++ l2) ->
  StronglySorted R l1
  /\ forall a b, In a l1 -> In b l2 -> R a b.
Proof.
  induction l1 as [|x l1 IH]; simpl; intros H.
  - split; [constructor|]. intros a b [].
  - apply StronglySorted_inv in H. destruct H as (Hs & Hx).
    destruct (IH Hs) as (Hs1 & Hcross).
    rewrite Forall_forall in Hx. split.
    + constructor; [assumption|]. apply Forall_forall.
      intros y Hy. apply Hx, in_or_app. auto.
    + intros a b [<-|Ha] Hb.
      * apply Hx, in_or_app. auto.
      * now apply Hcross.
Qed.

Lemma firstn_seq' (n a m : nat) :
  firstn n (seq a m) = seq a (Nat.min n m).
Proof.
  revert a m. induction n as [|n IH]; intros a [|m]; simpl; try reflexivity.
  now rewrite IH.
Qed.

Lemma rows_head (n : nat) (df : DataFrame) :
  rows (head n df) = firstn n (rows df).
Proof.
  unfold rows.
  assert (Hn : nrows (head n df) = Nat.min n (nrows df)).
  { destruct df as [|[c s] df]; simpl; [now rewrite Nat.min_0_r|].
    apply length_firstn. }
  rewrite Hn, firstn_map.
  rewrite firstn_seq'. apply map_ext_in. intros i Hi. apply in_seq in Hi.
  unfold iloc, head. rewrite map_map. apply map_ext. intros [c s]. simpl.
  f_equal. rewrite nth_firstn.
  destruct (Nat.ltb_spec i n); [reflexivity|lia].
Qed.

Lemma numeric_no_text (s : Series) :
  Forall (fun c => is_numeric c = true) s -> existsb is_text s = false.
Proof.
  induction 1 as [|c s Hc _ IH]; simpl; [reflexivity|].
  rewrite IH. destruct c; simpl in *; congruence.
Qed.

(** C4.  The breakdown by year returns, without raising, the first ten
    rows of the filtered table sorted by descending total budget: it has
    min(10, n) rows, they are rows of the filtered table each counted once,
    they stand in descending order of total budget, and no row left out has
    a larger total budget than a row returned. *)
Theorem df_year_breakdown_top10 (flt : DataFrame) (budget : Series) :
  rectangular flt ->
  lookup Total_Budget flt = Some budget ->
  Forall (fun c => is_numeric c = true) budget ->
  exists top rest,
    df_year_breakdown flt = Ok top
    /\ nrows top = Nat.min 10 (nrows flt)
    /\ columns top = columns flt
    /\ Permutation (rows flt) (rows top ++ rest)
    /\ StronglySorted (fun a b => (amount b <= amount a)%Q) (rows top)
    /\ (forall a b, In a (rows top) -> In b rest ->
                    (amount b <= amount a)%Q).
Proof.
  intros Hr Hb Hnum.
  assert (Hne : flt <> []) by (intros ->; discriminate).
  assert (Hlen : length budget = nrows flt)
    by (eapply rectangular_lookup; eauto).
  set (key := fun i => cell_value (nth i budget CNaN)).
  set (idx := argsort_desc key (length budget)).
  assert (Hperm : Permutation (seq 0 (nrows flt)) idx).
  { rewrite <- Hlen. apply argsort_desc_perm. }
  assert (Hrows : rows (take idx flt) = map (iloc flt) idx)
    by now apply rows_take.
  assert (Hsorted : StronglySorted (fun a b => (amount b <= amount a)%Q)
                      (rows (take idx flt))).
  { rewrite Hrows.
    apply StronglySorted_map_in
      with (R := fun i j => desc_before (key i) (key j) = true).
    - intros i j Hi Hj Hij.
      unfold amount. fold Total_Budget in Hb.
      rewrite !(field_iloc _ _ _ _ Hb).
      unfold key in Hij.
      assert (Hin : forall k, In k idx -> is_numeric (nth k budget CNaN) = true).
      { intros k Hk. rewrite Forall_forall in Hnum. apply Hnum, nth_In.
        apply (Permutation_in _ (Permutation_sym Hperm)), in_seq in Hk. lia. }
      pose proof (Hin i Hi) as Hni. pose proof (Hin j Hj) as Hnj.
      destruct (nth i budget CNaN), (nth j budget CNaN);
        simpl in *; try discriminate; now apply Qle_bool_iff.
    - apply argsort_desc_sorted. }
  exists (head 10 (take idx flt)), (skipn 10 (rows (take idx flt))).
  rewrite rows_head.
  split.
  { unfold df_year_breakdown, sort_values_desc, getitem.
    unfold Total_Budget in Hb.
    rewrite Hb. cbn [bind]. now rewrite numeric_no_text. }
  split.
  { rewrite <- length_rows, rows_head, length_firstn, Hrows, length_map.
    now rewrite <- (Permutation_length Hperm), length_seq. }
  split; [now rewrite columns_head, columns_take|].
  split.
  { rewrite firstn_skipn, Hrows. unfold rows. now apply Permutation_map. }
  rewrite <- (firstn_skipn 10 (rows (take idx flt))) in Hsorted.
  now apply StronglySorted_app_inv in Hsorted.
Qed.

(** ** Sums *)

Lemma series_sum_Ok (s : Series) :
  existsb is_text s = false -> series_sum s = Ok (sum_values s).
Proof. unfold series_sum. now intros ->. Qed.

Lemma group_sum_Ok (s : Series) :
  existsb is_text s = false -> group_sum s = Ok (group_sum_values s).
Proof. unfold group_sum. now intros ->. Qed.

(** ** Groups *)

Lemma insert_key_In (k x : Z) (l : list Z) :
  In x (insert_key k l) <-> x = k \/ In x l.
Proof.
  induction l as [|a l IH]; simpl.
  - intuition.
  - destruct (k <? a); simpl; [intuition|].
    destruct (k =? a) eqn:E; simpl.
    + apply Z.eqb_eq in E. subst. intuition.
    + rewrite IH. intuition.
Qed.

Lemma insert_key_sorted (k : Z) (l : list Z) :
  StronglySorted Z.lt l -> StronglySorted Z.lt (insert_key k l).
Proof.
  induction 1 as [|a l Hs IH Ha]; simpl.
  - repeat constructor.
  - destruct (Z.ltb_spec k a).
    + constructor; [now constructor|]. constructor; [assumption|].
      revert Ha. apply Forall_impl. intros; lia.
    + destruct (Z.eqb_spec k a).
      * now constructor.
      * constructor; [assumption|].
        apply Forall_forall. intros x Hx. apply insert_key_In in Hx.
        rewrite Forall_forall in Ha. destruct Hx as [->|Hx]; [lia|auto].
Qed.

Lemma sorted_unique_In (x : Z) (ks : list Z) :
  In x (sorted_unique ks) <-> In x ks.
Proof.
  unfold sorted_unique. induction ks as [|k ks IH]; simpl; [tauto|].
  rewrite insert_key_In, IH. intuition.
Qed.

Lemma sorted_unique_sorted (ks : list Z) :
  StronglySorted Z.lt (sorted_unique ks).
Proof.
  unfold sorted_unique. induction ks as [|k ks IH]; simpl.
  - constructor.
  - now apply insert_key_sorted.
Qed.

Lemma int_keys_In (y : Z) (s : Series) :
  In y (int_keys s) <-> In (CInt y) s.
Proof.
  unfold int_keys. rewrite in_flat_map. split.
  - intros (c & Hc & Hy). destruct c; simpl in Hy; try tauto.
    destruct Hy as [<-|[]]. assumption.
  - intros H. exists (CInt y). simpl. auto.
Qed.


Lemma no_text_existsb (s : Series) :
  no_text s -> existsb is_text s = false.
Proof.
  induction 1 as [|c s Hc _ IH]; simpl; [reflexivity|]. now rewrite Hc, IH.
Qed.

Lemma numeric_is_no_text (s : Series) :
  Forall (fun c => is_numeric c = true) s -> no_text s.
Proof.
  apply Forall_impl. intros [t|z|q|]; simpl; congruence.
Qed.

Lemma group_values_In (k : Z) (keys vals : Series) (c : cell) :
  In c (group_values k keys vals) -> In c vals.
Proof.
  unfold group_values. rewrite in_map_iff.
  intros ([a b] & <- & H). apply filter_In in H. destruct H as (H & _).
  now apply in_combine_r in H.
Qed.

Lemma group_values_no_text (k : Z) (keys vals : Series) :
  no_text vals -> no_text (group_values k keys vals).
Proof.
  unfold no_text. rewrite !Forall_forall. intros H c Hc.
  eapply H, group_values_In; eauto.
Qed.








Lemma group_sums_Ok (keys vals : Series) (ks : list Z) :
  no_text vals ->
  map_result (fun k => group_sum (group_values k keys vals)) ks
  = Ok (group_sums ks keys vals).
Proof.
  intros Hnt. induction ks as [|k ks IH]; simpl; [reflexivity|].
  rewrite group_sum_Ok
    by now apply no_text_existsb, group_values_no_text.
  cbn [bind]. rewrite IH. reflexivity.
Qed.


(** ** Trend *)

Lemma df_trend_spec (df : DataFrame) (keys budget : Series) :
  lookup Start_Year df = Some keys ->
  lookup Total_Budget df = Some budget ->
  no_text budget ->
  df_trend df
  = Ok [ (Start_Year, map CInt (sorted_unique (int_keys keys)));
         (Total_Budget,
           map CFloat (group_sums (sorted_unique (int_keys keys)) keys budget)) ].
Proof.
  intros Hk Hb Hnt.
  unfold df_trend, groupby_sum, getitem.
  unfold Start_Year, Total_Budget in Hk, Hb. rewrite Hk, Hb. cbn [bind].
  rewrite (group_sums_Ok _ _ _ Hnt). reflexivity.
Qed.


(** ** The cleaned table *)

Lemma start_year_of_int (x y : cell) :
  start_year_of x = Ok y -> is_int y = true.
Proof.
  destruct x as [s|z|q|]; simpl; try discriminate.
  destruct (py_int (before_dash s)); inversion 1. reflexivity.
Qed.

Lemma load_and_clean_data_columns (read_csv : string -> result DataFrame)
  (path : string) (df : DataFrame) :
  load_and_clean_data read_csv path = Ok df ->
  (exists keys, lookup Start_Year df = Some keys
                /\ Forall (fun c => is_int c = true) keys)
  /\ (forall c, c = Total_Budget \/ In c finance_cols ->
        exists s, lookup c df = Some s
                  /\ Forall (fun x => is_numeric x = true) s).
Proof.
  intros H.
  destruct (load_and_clean_data_spec _ _ _ H)
    as (raw & years & start & Hraw & Hy & Hst & Hsy & Hfin & Htb & _).
  assert (Hnum : forall c, In c finance_cols ->
             exists s, lookup c df = Some s
                       /\ Forall (fun x => is_numeric x = true) s).
  { intros c Hc. destruct (Hfin c Hc) as (s & _ & Hs).
    exists (map clean_cell s). split; [assumption|].
    apply Forall_map, Forall_forall. intros; apply clean_cell_numeric. }
  split.
  - exists start. split; [assumption|].
    clear - Hst. induction Hst; constructor; eauto using start_year_of_int.
  - intros c [->|Hc]; [|auto].
    rewrite Htb. apply Hnum. simpl. tauto.
Qed.

(** ** The computations of the page on a cleaned table *)

Lemma no_text_series_take (idx : list nat) (s : Series) :
  no_text s -> no_text (series_take idx s).
Proof.
  unfold no_text, series_take. intros H. apply Forall_map, Forall_forall.
  intros i _. destruct (nth_in_or_default i s CNaN) as [Hin | ->].
  - rewrite Forall_forall in H. now apply H.
  - reflexivity.
Qed.

Lemma summable_take (idx : list nat) (df : DataFrame) :
  summable df -> summable (take idx df).
Proof.
  intros (Hk & Hc). split.
  - rewrite lookup_take. destruct (lookup Start_Year df); [discriminate|tauto].
  - intros c Hin. destruct (Hc c Hin) as (s & Hs & Hnt).
    exists (series_take idx s). rewrite lookup_take, Hs.
    split; [reflexivity|]. now apply no_text_series_take.
Qed.

Lemma df_filtered_total (df : DataFrame) (ministry year : cell) :
  lookup "Ministry Name" df <> None ->
  summable df ->
  exists out, df_filtered df ministry year = Ok out /\ summable out.
Proof.
  intros Hm Hs. unfold df_filtered, getitem.
  destruct (lookup "Ministry Name" df) as [names|]; [|congruence].
  assert (Hstep : forall d, summable d ->
            exists out,
              (if py_ne year All_Years
               then col <- match lookup "Start Year" d with
                           | Some s => Ok s
                           | None => Raise (KeyError "Start Year")
                           end ;;
                    Ok (getitem_bool d (series_eq col year))
               else Ok d) = Ok out /\ summable out).
  { intros d Hd. destruct (py_ne year All_Years).
    - destruct Hd as (Hk & Hc). fold Start_Year.
      destruct (lookup Start_Year d) as [col|] eqn:E; [|congruence].
      cbn [bind]. eexists. split; [reflexivity|].
      apply summable_take. split; [congruence|assumption].
    - eauto. }
  destruct (py_ne ministry All_Ministries); cbn [bind].
  - apply Hstep. now apply summable_take.
  - now apply Hstep.
Qed.

Lemma key_metrics_spec (flt : DataFrame) :
  summable flt ->
  exists m,
    key_metrics flt = Ok m
    /\ (empty flt = true -> m = None)
    /\ (empty flt = false ->
        exists tb tp tn a b c,
          lookup Total_Budget flt = Some tb /\ series_sum tb = Ok a
          /\ lookup "Total (Plan)" flt = Some tp /\ series_sum tp = Ok b
          /\ lookup "Total (Non-Plan)" flt = Some tn /\ series_sum tn = Ok c
          /\ m = Some {| total_budget := a;
                         total_plan := b;
                         total_non_plan := c |}).
Proof.
  intros (_ & Hc). unfold key_metrics.
  destruct (empty flt); cbn [negb].
  - exists None. repeat split; [discriminate].
  - destruct (Hc Total_Budget) as (tb & Htb & Ntb); [simpl; tauto|].
    destruct (Hc "Total (Plan)") as (tp & Htp & Ntp); [simpl; tauto|].
    destruct (Hc "Total (Non-Plan)") as (tn & Htn & Ntn); [simpl; tauto|].
    pose proof (series_sum_Ok tb (no_text_existsb _ Ntb)) as Ha.
    pose proof (series_sum_Ok tp (no_text_existsb _ Ntp)) as Hb.
    pose proof (series_sum_Ok tn (no_text_existsb _ Ntn)) as Hc'.
    unfold getitem. unfold Total_Budget in Htb.
    rewrite Htb; cbn [bind]. rewrite Ha; cbn [bind].
    rewrite Htp; cbn [bind]. rewrite Hb; cbn [bind].
    rewrite Htn; cbn [bind]. rewrite Hc'; cbn [bind].
    eexists. split; [reflexivity|]. split; [discriminate|].
    intros _.
    exists tb, tp, tn, (sum_values tb), (sum_values tp), (sum_values tn).
    auto 10.
Qed.



Lemma df_plan_nonplan_eq (flt : DataFrame) (sy tp tn : Series) :
  lookup Start_Year flt = Some sy ->
  lookup "Total (Plan)" flt = Some tp ->
  lookup "Total (Non-Plan)" flt = Some tn ->
  df_plan_nonplan flt
  = Ok [ (Start_Year, sy ++ sy);
         ("Type", repeat (CStr "Total (Plan)") (length tp)
                  ++ repeat (CStr "Total (Non-Plan)") (length tn));
         ("Amount", tp ++ tn) ].
Proof.
  intros Hsy Htp Htn.
  unfold df_plan_nonplan, getitem_list, getitem. cbn [map_result].
  unfold Start_Year in Hsy. rewrite Hsy, Htp, Htn. cbn.
  now rewrite !app_nil_r.
Qed.


Lemma load_and_clean_data_summable (read_csv : string -> result DataFrame)
  (path : string) (df : DataFrame) :
  load_and_clean_data read_csv path = Ok df -> summable df.
Proof.
  intros H.
  destruct (load_and_clean_data_columns _ _ _ H) as ((keys & Hk & _) & Hc).
  split; [congruence|].
  intros c Hin.
  destruct (Hc c) as (s & Hs & Hnum).
  { simpl in Hin. simpl.
    destruct Hin as [<-|[<-|[<-|[]]]]; auto 10. }
  exists s. split; [assumption|]. now apply numeric_is_no_text.
Qed.

Lemma load_block_Ok (read_csv : string -> result DataFrame)
  (df : DataFrame) (ms ys : list cell) :
  load_block read_csv = Ok (df, ms, ys) ->
  load_and_clean_data read_csv file_path = Ok df
  /\ lookup "Ministry Name" df <> None.
Proof.
  unfold load_block. intros H.
  apply bind_Ok in H. destruct H as (df' & Hdf & H).
  apply bind_Ok in H. destruct H as (names & Hn & H).
  apply bind_Ok in H. destruct H as (sn & _ & H).
  apply bind_Ok in H. destruct H as (years & _ & H).
  apply bind_Ok in H. destruct H as (sy & _ & H).
  apply bind_Ok in H. destruct H as (done & _ & H).
  inversion H; subst. split; [assumption|].
  apply getitem_Ok in Hn. congruence.
Qed.

Lemma load_block_Raise (read_csv : string -> result DataFrame) (e : exn) :
  load_and_clean_data read_csv file_path = Raise e ->
  load_block read_csv = Raise e.
Proof.
  unfold load_block. intros H. now rewrite H.
Qed.

Ltac shown H := apply bind_Ok in H; destruct H as (? & _ & H).

Lemma dashboard_Ok (df : DataFrame) (ms ys : list cell) (pm py : nat)
  (p : page) :
  dashboard df ms ys pm py = Ok p ->
  raw_data p = df
  /\ selected_ministry p = selectbox ms pm
  /\ selected_year p = selectbox ys py
  /\ df_filtered df (selected_ministry p) (selected_year p) = Ok (filtered p)
  /\ key_metrics (filtered p) = Ok (key_figures p)
  /\ df_trend df = Ok (trend p)
  /\ match detail p with
     | TopMinistries top =>
         py_ne (selected_year p) All_Years = true
         /\ df_year_breakdown (filtered p) = Ok top
     | PlanVsNonPlan long =>
         py_ne (selected_year p) All_Years = false
         /\ py_ne (selected_ministry p) All_Ministries = true
         /\ df_plan_nonplan (filtered p) = Ok long
     | InfoMessage =>
         py_ne (selected_year p) All_Years = false
         /\ py_ne (selected_ministry p) All_Ministries = false
     end.
Proof.
  unfold dashboard. intros H.
  do 4 shown H.
  apply bind_Ok in H. destruct H as (flt & Hflt & H).
  do 3 shown H.
  apply bind_Ok in H. destruct H as (figures & Hfig & H).
  do 5 shown H.
  apply bind_Ok in H. destruct H as (tr & Htr & H).
  do 3 shown H.
  apply bind_Ok in H. destruct H as (det & Hdet & H).
  do 3 shown H.
  inversion H; subst p; clear H. simpl.
  repeat (split; [first [reflexivity | assumption]|]).
  destruct (py_ne (selectbox ys py) All_Years).
  - shown Hdet.
    apply bind_Ok in Hdet. destruct Hdet as (top & Htop & Hd).
    do 2 shown Hd.
    inversion Hd; subst. auto.
  - destruct (py_ne (selectbox ms pm) All_Ministries).
    + shown Hdet.
      apply bind_Ok in Hdet. destruct Hdet as (long & Hlong & Hd).
      do 2 shown Hd.
      inversion Hd; subst. auto.
    + shown Hdet. inversion Hdet; subst. auto.
Qed.




Lemma ga_Rendered (read_csv : string -> result DataFrame)
  (pm py : nat) (p : page) :
  ga read_csv pm py = Rendered p ->
  exists ms ys,
    load_block read_csv = Ok (raw_data p, ms, ys)
    /\ dashboard (raw_data p) ms ys pm py = Ok p.
Proof.
  unfold ga.
  destruct (load_block read_csv) as [[[df ms] ys]|e'] eqn:Hb; [|discriminate].
  destruct (dashboard df ms ys pm py) as [p'|e'] eqn:Hd; [|discriminate].
  intros H. inversion H; subst p'.
  destruct (dashboard_Ok _ _ _ _ _ _ Hd) as (Hraw & _).
  rewrite Hraw. eauto.
Qed.

(** ** Errors *)

(** C1, as the code has it.  A Year cell that [int(x.split('-')[0])]
    rejects (text whose part before the first "-" is no integer, or a cell
    that is no text) makes [load_and_clean_data] raise [ValueError] or
    [AttributeError] inside the guarded block; [except Exception] catches
    it and the run reports the error and stops, exactly as it does when
    reading the file raises.  A Year cell without a dash is rejected only
    if the whole cell is no integer. *)
Theorem malformed_year_is_reported
  (read_csv : string -> result DataFrame) (raw : DataFrame) (years : Series)
  (pm py : nat) :
  read_csv file_path = Ok raw ->
  (forall c, In c finance_cols -> lookup c raw <> None) ->
  lookup "Year" raw = Some years ->
  Exists (fun x => exists e, start_year_of x = Raise e) years ->
  (exists e,
      (e = ValueError \/ e = AttributeError)
      /\ load_and_clean_data read_csv file_path = Raise e
      /\ ga read_csv pm py = Stopped e)
  /\ (forall other e,
        other file_path = Raise e -> ga other pm py = Stopped e)
  /\ (forall s, (exists e, start_year_of (CStr s) = Raise e)
                <-> py_int (before_dash s) = None)
  /\ start_year_of (CStr "2015") = Ok (CInt 2015).
Proof.
  intros Hraw Hfin Hy Hbad.
  split; [|split; [|split]].
  - destruct (load_and_clean_data_malformed _ _ _ _ Hraw Hfin Hy Hbad)
      as (x & e & _ & Hx & Hload).
    exists e. split; [eapply start_year_of_Raise; eauto|].
    split; [assumption|].
    unfold ga. now rewrite (load_block_Raise _ _ Hload).
  - intros other e He. unfold ga.
    rewrite (load_block_Raise other e); [reflexivity|].
    unfold load_and_clean_data. now rewrite He.
  - intros s. simpl. destruct (py_int (before_dash s)).
    + split; [intros (e & He); discriminate|discriminate].
    + split; eauto.
  - reflexivity.
Qed.

(** ** Key metrics *)


(** ** Trend over the full table *)


(** ** Plan against non-plan *)

Lemma seq_offset (a n : nat) : seq a n = map (Nat.add a) (seq 0 n).
Proof.
  induction a as [|a IH]; simpl.
  - symmetry. apply map_id.
  - rewrite <- seq_shift, IH, map_map. reflexivity.
Qed.

Lemma rows_long (flt : DataFrame) (sy tp tn : Series) :
  rectangular flt ->
  lookup Start_Year flt = Some sy ->
  lookup "Total (Plan)" flt = Some tp ->
  lookup "Total (Non-Plan)" flt = Some tn ->
  rows [ (Start_Year, sy ++ sy);
         ("Type", repeat (CStr "Total (Plan)") (length tp)
                  ++ repeat (CStr "Total (Non-Plan)") (length tn));
         ("Amount", tp ++ tn) ]
  = map (long_row "Total (Plan)") (rows flt)
    ++ map (long_row "Total (Non-Plan)") (rows flt).
Proof.
  intros Hr Hsy Htp Htn.
  pose proof (rectangular_lookup _ _ _ Hr Hsy) as Lsy.
  pose proof (rectangular_lookup _ _ _ Hr Htp) as Ltp.
  pose proof (rectangular_lookup _ _ _ Hr Htn) as Ltn.
  unfold rows at 1. cbn [nrows]. rewrite length_app, Lsy, seq_app, map_app.
  unfold rows. rewrite !map_map. f_equal.
  - apply map_ext_in. intros i Hi. apply in_seq in Hi.
    unfold long_row.
    rewrite (field_iloc _ _ _ _ Hsy), (field_iloc _ _ _ _ Htp).
    unfold iloc. cbn [map fst snd].
    rewrite !app_nth1 by (rewrite ?repeat_length; lia).
    rewrite nth_repeat_lt by lia. reflexivity.
  - rewrite (seq_offset (0 + nrows flt)), map_map.
    apply map_ext_in. intros i Hi. apply in_seq in Hi.
    unfold long_row.
    rewrite (field_iloc _ _ _ _ Hsy), (field_iloc _ _ _ _ Htn).
    unfold iloc. cbn [map fst snd].
    rewrite !app_nth2 by (rewrite ?repeat_length; lia).
    rewrite repeat_length, Lsy, Ltp.
    replace (0 + nrows flt + i - nrows flt)%nat with i by lia.
    rewrite nth_repeat_lt by lia. reflexivity.
Qed.

Lemma count_long_rows (y : Z) (category other : string) (rs : list row) :
  length (filter (is_pair y category) (map (long_row other) rs))
  = if String.eqb other category then length (filter (in_year y) rs) else O.
Proof.
  rewrite filter_map_swap, length_map.
  destruct (String.eqb other category) eqn:E.
  - f_equal. apply filter_ext. intros r.
    unfold is_pair, in_year, long_row. simpl. rewrite E. apply andb_true_r.
  - rewrite filter_none; [reflexivity|]. intros r _.
    unfold is_pair, in_year, long_row. simpl. rewrite E. apply andb_false_r.
Qed.

(** C8, as the code has it.  The breakdown by ministry returns, without
    raising, a long table with the columns "Start Year", "Type" and
    "Amount" that holds, first for "Total (Plan)" and then for
    "Total (Non-Plan)", one row per row of the filtered table: twice as
    many rows as the filtered table, and for a year and a category as many
    rows as the filtered table has rows of that year. *)
Theorem df_plan_nonplan_long (flt : DataFrame) (sy tp tn : Series) :
  rectangular flt ->
  lookup Start_Year flt = Some sy ->
  lookup "Total (Plan)" flt = Some tp ->
  lookup "Total (Non-Plan)" flt = Some tn ->
  exists long,
    df_plan_nonplan flt = Ok long
    /\ columns long = [Start_Year; "Type"; "Amount"]
    /\ rows long
       = map (long_row "Total (Plan)") (rows flt)
         ++ map (long_row "Total (Non-Plan)") (rows flt)
    /\ nrows long = (2 * nrows flt)%nat
    /\ forall y category,
         category = "Total (Plan)" \/ category = "Total (Non-Plan)" ->
         count_rows (is_pair y category) long = count_rows (in_year y) flt.
Proof.
  intros Hr Hsy Htp Htn.
  eexists. split; [apply (df_plan_nonplan_eq _ _ _ _ Hsy Htp Htn)|].
  split; [reflexivity|].
  pose proof (rows_long _ _ _ _ Hr Hsy Htp Htn) as Hrows.
  split; [assumption|]. split.
  - rewrite <- length_rows, Hrows, length_app, !length_map, length_rows. lia.
  - intros y category Hc. unfold count_rows. rewrite Hrows.
    rewrite filter_app, length_app, !count_long_rows.
    destruct Hc as [-> | ->]; simpl; lia.
Qed.

(** ** More on loading and cleaning *)

Lemma for_each_app {A S : Type} (xs ys : list A) (body : S -> A -> result S)
  (st : S) :
  for_each (xs ++ ys) body st
  = (st' <- for_each xs body st ;; for_each ys body st').
Proof.
  revert st. induction xs as [|x xs IH]; simpl; intros st; [reflexivity|].
  destruct (body st x); simpl; auto.
Qed.

Lemma setitem_same_id (df : DataFrame) (c : string) (s : Series) :
  lookup c df = Some s -> setitem df c s = df.
Proof.
  induction df as [|[d s'] df IH]; simpl; [discriminate|].
  destruct (String.eqb c d) eqn:E.
  - inversion 1. reflexivity.
  - intros H. now rewrite IH.
Qed.

Lemma clean_cell_idempotent (c : cell) :
  clean_cell (clean_cell c) = clean_cell c.
Proof.
  pose proof (clean_cell_numeric c) as H.
  destruct (clean_cell c); simpl in *; congruence.
Qed.

Lemma start_year_of_Ok (x y : cell) :
  start_year_of x = Ok y ->
  exists s z, x = CStr s /\ py_int (before_dash s) = Some z /\ y = CInt z.
Proof.
  destruct x as [s|z|q|]; simpl; try discriminate.
  destruct (py_int (before_dash s)) as [z|] eqn:E; inversion 1.
  exists s, z. auto.
Qed.


(** X2.  When the table read lacks a financial column, the loop raises
    [KeyError] for the first one missing in the order of [finance_cols];
    when those are all there but "Year" is not, [KeyError] for "Year".
    Either way the dashboard reports it and stops. *)
Theorem missing_column_is_KeyError
  (read_csv : string -> result DataFrame) (raw : DataFrame) (pm py : nat) :
  read_csv file_path = Ok raw ->
  (forall before c after,
      finance_cols = before ++ c :: after ->
      (forall c', In c' before -> lookup c' raw <> None) ->
      lookup c raw = None ->
      load_and_clean_data read_csv file_path = Raise (KeyError c)
      /\ ga read_csv pm py = Stopped (KeyError c))
  /\ ((forall c, In c finance_cols -> lookup c raw <> None) ->
      lookup "Year" raw = None ->
      load_and_clean_data read_csv file_path = Raise (KeyError "Year")
      /\ ga read_csv pm py = Stopped (KeyError "Year")).
Proof.
  intros Hraw.
  assert (Hga : forall e, load_and_clean_data read_csv file_path = Raise e ->
                          ga read_csv pm py = Stopped e).
  { intros e He. unfold ga. now rewrite (load_block_Raise _ _ He). }
  split.
  - intros before c after Hsplit Hbefore Hc.
    assert (Hload : load_and_clean_data read_csv file_path
                    = Raise (KeyError c)).
    { unfold load_and_clean_data. rewrite Hraw; cbn [bind].
      rewrite Hsplit, for_each_app.
      destruct (clean_loop_total before raw Hbefore) as (mid & Hmid).
      rewrite Hmid; cbn [bind].
      pose proof finance_cols_NoDup as Hnd. rewrite Hsplit in Hnd.
      destruct (clean_loop before (NoDup_app_remove_r _ _ Hnd) _ _ Hmid)
        as (_ & Hout & _).
      cbn [for_each]. rewrite clean_column_eq, Hout, Hc; [reflexivity|].
      apply NoDup_remove_2 in Hnd. intros Hin. apply Hnd, in_or_app. auto. }
    split; [assumption|auto].
  - intros Hfin Hy.
    assert (Hload : load_and_clean_data read_csv file_path
                    = Raise (KeyError "Year")).
    { unfold load_and_clean_data. rewrite Hraw; cbn [bind].
      destruct (clean_loop_total finance_cols raw Hfin) as (cleaned & Hcl).
      rewrite Hcl; cbn [bind].
      destruct (clean_loop _ finance_cols_NoDup _ _ Hcl) as (_ & Hout & _).
      unfold getitem at 1.
      rewrite Hout, Hy by (simpl; intuition discriminate). reflexivity. }
    split; [assumption|auto].
Qed.

Lemma clean_loop_fixpoint (cols : list string) (df : DataFrame) :
  (forall c, In c cols ->
     exists s, lookup c df = Some s /\ map clean_cell s = s) ->
  for_each cols clean_column df = Ok df.
Proof.
  induction cols as [|c cols IH]; simpl; intros H; [reflexivity|].
  rewrite clean_column_eq.
  destruct (H c (or_introl eq_refl)) as (s & Hs & Hfix).
  rewrite Hs, Hfix, (setitem_same_id _ _ _ Hs). cbn [bind]. auto.
Qed.

(** X3.  Cleaning is idempotent: loading and cleaning again the table
    that [load_and_clean_data] returned gives the same table. *)
Theorem load_and_clean_data_idempotent
  (read_csv : string -> result DataFrame) (path path' : string)
  (df : DataFrame) :
  load_and_clean_data read_csv path = Ok df ->
  load_and_clean_data (fun _ => Ok df) path' = Ok df.
Proof.
  intros H.
  destruct (load_and_clean_data_inv _ _ _ H)
    as (raw & cleaned & years & start & total & _ & _ & Hy & Hs & Ht & Hdf).
  destruct (load_and_clean_data_spec _ _ _ H)
    as (raw' & years' & start' & _ & _ & _ & _ & Hfin & Htb & _).
  assert (Hsy : lookup Start_Year df = Some start).
  { subst df. rewrite lookup_setitem_other by discriminate.
    apply lookup_setitem_same. }
  assert (Hyear : lookup "Year" df = Some years).
  { subst df. now rewrite !lookup_setitem_other by discriminate. }
  assert (Htotal : lookup "Total Plan & Non-Plan" df = Some total).
  { subst df. now rewrite !lookup_setitem_other by discriminate. }
  unfold load_and_clean_data. cbn [bind].
  rewrite clean_loop_fixpoint; cbn [bind].
  - unfold getitem at 1. rewrite Hyear; cbn [bind].
    unfold series_apply. rewrite Hs; cbn [bind].
    fold Start_Year. rewrite (setitem_same_id _ _ _ Hsy).
    unfold getitem. rewrite Htotal; cbn [bind].
    fold Total_Budget. rewrite setitem_same_id; [reflexivity|].
    now rewrite Htb.
  - intros c Hc. destruct (Hfin c Hc) as (s & _ & Hs').
    exists (map clean_cell s). split; [assumption|].
    rewrite map_map. apply map_ext. apply clean_cell_idempotent.
Qed.

(** ** More on the Year column *)

Lemma before_dash_chars_no_dash (s : string) :
  ~ In "-"%char (chars (before_dash s)).
Proof.
  induction s as [|c s IH]; simpl; [tauto|].
  destruct (is_dash c) eqn:E; simpl; [tauto|].
  intros [H|H]; [|tauto].
  unfold is_dash in E. apply Ascii.eqb_neq in E. congruence.
Qed.

Lemma lstrip_In (c : ascii) (l : list ascii) : In c (lstrip l) -> In c l.
Proof.
  induction l as [|a l IH]; simpl; [tauto|].
  destruct (is_space a); simpl; tauto.
Qed.

Lemma strip_In (c : ascii) (l : list ascii) : In c (strip l) -> In c l.
Proof.
  unfold strip. intros H.
  apply in_rev, lstrip_In, in_rev, lstrip_In in H. assumption.
Qed.

Lemma digit_value_nonneg (c : ascii) : is_digit c = true -> 0 <= digit_value c.
Proof.
  unfold is_digit, digit_value. intros H.
  apply andb_prop in H. destruct H as (H & _).
  apply Nat.leb_le in H. lia.
Qed.

Lemma int_digits_nonneg (l : list ascii) :
  forall acc b z, 0 <= acc -> int_digits acc b l = Some z -> 0 <= z.
Proof.
  induction l as [|c l IH]; simpl; intros acc b z Hacc H.
  - destruct b; inversion H; subst; assumption.
  - destruct (is_digit c) eqn:Ed.
    + pose proof (digit_value_nonneg c Ed).
      apply (IH (10 * acc + digit_value c) true z); [lia|exact H].
    + destruct (Ascii.eqb c "_"%char && b); [|discriminate].
      apply (IH _ _ _ Hacc H).
Qed.

Lemma py_int_nonneg (s : string) (z : Z) :
  ~ In "-"%char (chars s) -> py_int s = Some z -> 0 <= z.
Proof.
  unfold py_int. cbv zeta. intros Hnd H.
  destruct (strip (chars s)) as [|c l] eqn:E.
  - destruct (int_max_str_digits <? _); discriminate.
  - destruct (int_max_str_digits <? _); [discriminate|].
    assert (Hc : c <> "-"%char).
    { intros ->. apply Hnd, strip_In. rewrite E. now left. }
    destruct c as [[] [] [] [] [] [] [] []];
      try (exact (int_digits_nonneg _ _ _ _ (Z.le_refl 0) H));
      congruence.
Qed.

Lemma start_year_of_nonneg (x : cell) (z : Z) :
  start_year_of x = Ok (CInt z) -> 0 <= z.
Proof.
  intros H. destruct (start_year_of_Ok _ _ H) as (s & z' & -> & Hz & Heq).
  inversion Heq; subst z'.
  eapply py_int_nonneg; eauto. apply before_dash_chars_no_dash.
Qed.

(** X4.  Every "Start Year" of a cleaned table is an integer that is not
    negative: a minus sign would be a dash, and the split cuts there. *)
Theorem start_years_not_negative
  (read_csv : string -> result DataFrame) (path : string) (df : DataFrame) :
  load_and_clean_data read_csv path = Ok df ->
  exists start,
    getitem df Start_Year = Ok start
    /\ Forall (fun c => exists z, c = CInt z /\ 0 <= z) start.
Proof.
  intros H.
  destruct (load_and_clean_data_spec _ _ _ H)
    as (raw & years & start & _ & _ & Hst & Hsy & _).
  exists start. split; [now apply getitem_Ok|].
  clear - Hst. induction Hst as [|x y xs ys Hxy _ IH]; constructor; auto.
  destruct (start_year_of_Ok _ _ Hxy) as (s & z & _ & _ & ->).
  exists z. split; [reflexivity|]. now apply (start_year_of_nonneg x).
Qed.

Lemma before_dash_id (s : string) : no_dash s -> before_dash s = s.
Proof.
  induction s as [|c s IH]; simpl; intros H; [reflexivity|].
  assert (Hc : is_dash c = false).
  { unfold is_dash. apply Ascii.eqb_neq. intros ->. now apply (H O). }
  rewrite Hc. f_equal. apply IH. intros i. apply (H (S i)).
Qed.

(** X5.  What [int(x.split('-')[0])] looks at: everything from the first
    dash on is ignored, so the end year is never read; a cell that begins
    with a dash is a [ValueError]; a cell that is no text is an
    [AttributeError]. *)
Theorem start_year_reads_only_the_prefix (pre suf : string) :
  no_dash pre ->
  start_year_of (CStr (pre ++ String "-" suf)%string)
  = start_year_of (CStr pre)
  /\ (forall s, start_year_of (CStr (String "-" s)) = Raise ValueError)
  /\ (forall c, is_text c = false -> start_year_of c = Raise AttributeError).
Proof.
  intros H. split; [|split].
  - simpl. now rewrite before_dash_app, before_dash_id.
  - reflexivity.
  - intros [s|z|q|]; simpl; congruence.
Qed.

(** ** The options of the two select boxes *)

Lemma unique_In_sub (c : cell) (s : Series) : In c (unique s) -> In c s.
Proof.
  revert c. induction s as [|a s IH]; simpl; intros c; [tauto|].
  intros [H|H]; [auto|]. apply filter_In in H. right. apply IH, H.
Qed.

Lemma same_value_text (d : cell) (t : string) :
  same_value d (CStr t) = true -> d = CStr t.
Proof.
  destruct d as [u|z|q|]; simpl; try discriminate.
  intros H. apply String.eqb_eq in H. congruence.
Qed.

Lemma same_value_int (d : cell) (z : Z) :
  is_int d = true -> same_value d (CInt z) = true -> d = CInt z.
Proof.
  destruct d as [u|y|q|]; simpl; try discriminate.
  intros _ H. apply Z.eqb_eq in H. congruence.
Qed.

Lemma same_value_kind (a b : cell) :
  same_value a b = true -> is_text a = is_text b.
Proof.
  destruct a, b; simpl; congruence.
Qed.

Lemma unique_In_text (t : string) (s : Series) :
  In (CStr t) s -> In (CStr t) (unique s).
Proof.
  induction s as [|a s IH]; simpl; [tauto|].
  intros [H|H]; [auto|].
  destruct (same_value a (CStr t)) eqn:E.
  - left. now apply same_value_text.
  - right. apply filter_In. split; [auto|]. now rewrite E.
Qed.

Lemma unique_In_int (z : Z) (s : Series) :
  Forall (fun c => is_int c = true) s ->
  In (CInt z) s -> In (CInt z) (unique s).
Proof.
  induction 1 as [|a s Ha _ IH]; simpl; [tauto|].
  intros [H|H]; [auto|].
  destruct (same_value a (CInt z)) eqn:E.
  - left. now apply same_value_int.
  - right. apply filter_In. split; [auto|]. now rewrite E.
Qed.

Lemma unique_kind (c : cell) (s : Series) :
  In c s -> exists d, In d (unique s) /\ is_text d = is_text c.
Proof.
  induction s as [|a s IH]; simpl; [tauto|].
  intros [->|H]; [eauto|].
  destruct (IH H) as (d & Hd & Hk).
  destruct (same_value a d) eqn:E.
  - exists a. split; [auto|]. rewrite <- Hk. now apply same_value_kind.
  - exists d. split; [|assumption]. right. apply filter_In.
    split; [assumption|]. now rewrite E.
Qed.

Lemma existsb_unique (p : bool -> bool) (s : Series) :
  existsb (fun c => p (is_text c)) (unique s)
  = existsb (fun c => p (is_text c)) s.
Proof.
  apply Bool.eq_iff_eq_true. rewrite !existsb_exists. split.
  - intros (c & Hc & Hp). exists c. split; [now apply unique_In_sub|auto].
  - intros (c & Hc & Hp). destruct (unique_kind c s Hc) as (d & Hd & Hk).
    exists d. split; [assumption|]. now rewrite Hk.
Qed.

Lemma mixed_unique (s : Series) : mixed (unique s) = mixed s.
Proof.
  unfold mixed.
  rewrite (existsb_unique (fun b => b)), (existsb_unique negb). reflexivity.
Qed.

Lemma unique_ints_NoDup (s : Series) :
  Forall (fun c => is_int c = true) s -> NoDup (unique s).
Proof.
  induction 1 as [|a s Ha _ IH]; simpl; constructor.
  - intros H. apply filter_In in H. destruct H as (_ & H).
    destruct a; simpl in *; try discriminate.
    rewrite Z.eqb_refl in H. discriminate.
  - now apply NoDup_filter.
Qed.

Lemma ints_as_map (s : Series) :
  Forall (fun c => is_int c = true) s -> s = map CInt (int_keys s).
Proof.
  induction 1 as [|a s Ha _ IH]; simpl; [reflexivity|].
  destruct a; simpl in *; try discriminate. now f_equal.
Qed.

Lemma insert_cell_perm (c : cell) (l : list cell) :
  Permutation (c :: l) (insert_cell c l).
Proof.
  induction l as [|d l IH]; simpl; [reflexivity|].
  destruct (cell_ltb d c); [|reflexivity].
  rewrite perm_swap. now constructor.
Qed.

Lemma sorted_cells_perm (l : list cell) :
  Permutation l (fold_right insert_cell [] l).
Proof.
  induction l as [|c l IH]; simpl; [constructor|].
  rewrite <- insert_cell_perm. now constructor.
Qed.

Lemma cell_ltb_ints (a b : Z) : cell_ltb (CInt a) (CInt b) = (a <? b).
Proof.
  unfold cell_ltb. simpl. unfold Qle_bool. simpl.
  rewrite !Z.mul_1_r. rewrite Z.ltb_antisym. reflexivity.
Qed.

Lemma insert_cell_ints (z : Z) (zs : list Z) :
  ~ In z zs -> StronglySorted Z.lt zs ->
  exists zs',
    insert_cell (CInt z) (map CInt zs) = map CInt zs'
    /\ StronglySorted Z.lt zs'
    /\ forall x, In x zs' <-> x = z \/ In x zs.
Proof.
  intros Hz Hs. induction Hs as [|d zs Hs IH Hd]; cbn [map insert_cell].
  - exists [z]. split; [reflexivity|]. split; [repeat constructor|].
    intros x. simpl. intuition.
  - rewrite cell_ltb_ints. destruct (Z.ltb_spec d z).
    + destruct IH as (zs' & Heq & Hs' & Hin); [simpl in Hz; tauto|].
      exists (d :: zs'). rewrite Heq. split; [reflexivity|]. split.
      * constructor; [assumption|]. apply Forall_forall. intros x Hx.
        apply Hin in Hx. rewrite Forall_forall in Hd.
        destruct Hx as [->|Hx]; auto.
      * intros x. simpl. rewrite Hin. intuition.
    + exists (z :: d :: zs). split; [reflexivity|]. split.
      * constructor; [now constructor|].
        assert (z < d) by (simpl in Hz; lia).
        constructor; [assumption|].
        revert Hd. apply Forall_impl. intros; lia.
      * intros x. simpl. intuition.
Qed.

Lemma sorted_cells_ints (l : list Z) :
  NoDup l ->
  exists zs,
    fold_right insert_cell [] (map CInt l) = map CInt zs
    /\ StronglySorted Z.lt zs
    /\ forall x, In x zs <-> In x l.
Proof.
  induction 1 as [|z l Hz _ (zs & Heq & Hs & Hin)]; simpl.
  - exists []. repeat split; try constructor; auto.
  - rewrite Heq.
    destruct (insert_cell_ints z zs) as (zs' & Heq' & Hs' & Hin').
    + now rewrite Hin.
    + assumption.
    + exists zs'. repeat split; try assumption.
      * intros Hx. apply Hin' in Hx. rewrite Hin in Hx. intuition.
      * intros Hx. apply Hin'. rewrite Hin. intuition.
Qed.

Lemma sorted_lt_unique (a : list Z) :
  forall b,
    StronglySorted Z.lt a -> StronglySorted Z.lt b ->
    (forall x, In x a <-> In x b) -> a = b.
Proof.
  induction a as [|x a IH]; intros [|y b] Ha Hb Hin.
  - reflexivity.
  - exfalso. apply (proj2 (Hin y)). now left.
  - exfalso. apply (proj1 (Hin x)). now left.
  - apply StronglySorted_inv in Ha, Hb.
    destruct Ha as (Ha & Hx), Hb as (Hb & Hy).
    rewrite Forall_forall in Hx, Hy.
    assert (x = y).
    { destruct (proj1 (Hin x) (or_introl eq_refl)) as [|H1]; [auto|].
      destruct (proj2 (Hin y) (or_introl eq_refl)) as [|H2]; [auto|].
      specialize (Hx _ H2). specialize (Hy _ H1). lia. }
    subst y. f_equal. apply IH; try assumption.
    intros z. split; intros Hz.
    + destruct (proj1 (Hin z) (or_intror Hz)) as [<-|]; [|assumption].
      specialize (Hx _ Hz). lia.
    + destruct (proj2 (Hin z) (or_intror Hz)) as [<-|]; [|assumption].
      specialize (Hy _ Hz). lia.
Qed.

Lemma py_sorted_years (keys : Series) :
  Forall (fun c => is_int c = true) keys ->
  py_sorted (unique keys) = Ok (map CInt (sorted_unique (int_keys keys))).
Proof.
  intros Hint.
  assert (Hu : Forall (fun c => is_int c = true) (unique keys)).
  { rewrite Forall_forall in *. intros c Hc. now apply Hint, unique_In_sub. }
  unfold py_sorted.
  assert (Hnt : existsb is_text (unique keys) = false).
  { apply no_text_existsb. revert Hu. apply Forall_impl.
    intros [t|z|q|]; simpl; congruence. }
  rewrite Hnt. cbn [andb]. f_equal.
  pose proof (unique_ints_NoDup _ Hint) as Hnd.
  rewrite (ints_as_map _ Hu) in Hnd |- *.
  apply NoDup_map_inv in Hnd.
  destruct (sorted_cells_ints _ Hnd) as (zs & Heq & Hs & Hin).
  rewrite Heq. f_equal.
  apply sorted_lt_unique; [assumption|apply sorted_unique_sorted|].
  intros x. rewrite Hin, sorted_unique_In, !int_keys_In. split.
  - apply unique_In_sub.
  - now apply unique_In_int.
Qed.

Lemma load_block_eq (read_csv : string -> result DataFrame)
  (df : DataFrame) :
  load_and_clean_data read_csv file_path = Ok df ->
  load_block read_csv
  = match lookup "Ministry Name" df with
    | None => Raise (KeyError "Ministry Name")
    | Some names =>
        if mixed names then Raise TypeError
        else
          match lookup Start_Year df with
          | None => Raise (KeyError Start_Year)
          | Some keys =>
              present 50
                (Text "st.sidebar.success" "Data loaded successfully!" []) ;;
              Ok (df,
                  All_Ministries :: fold_right insert_cell [] (unique names),
                  All_Years :: map CInt (sorted_unique (int_keys keys)))
          end
    end.
Proof.
  intros H. unfold load_block. rewrite H; cbn [bind].
  unfold getitem at 1.
  destruct (lookup "Ministry Name" df) as [names|]; cbn [bind]; [|reflexivity].
  unfold py_sorted at 1. fold (mixed (unique names)). rewrite mixed_unique.
  destruct (mixed names); cbn [bind]; [reflexivity|].
  destruct (load_and_clean_data_columns _ _ _ H) as ((keys & Hk & Hint) & _).
  unfold getitem. fold Start_Year. rewrite Hk; cbn [bind].
  now rewrite (py_sorted_years _ Hint).
Qed.

Lemma load_block_lists (read_csv : string -> result DataFrame)
  (df : DataFrame) (ms ys : list cell) :
  load_block read_csv = Ok (df, ms, ys) ->
  exists names keys,
    lookup "Ministry Name" df = Some names
    /\ mixed names = false
    /\ lookup Start_Year df = Some keys
    /\ ms = All_Ministries :: fold_right insert_cell [] (unique names)
    /\ ys = All_Years :: map CInt (sorted_unique (int_keys keys)).
Proof.
  intros H.
  destruct (load_block_Ok _ _ _ _ H) as (Hload & _).
  rewrite (load_block_eq _ _ Hload) in H.
  destruct (lookup "Ministry Name" df) as [names|] eqn:Hn; [|discriminate].
  destruct (mixed names) eqn:Hmix; [discriminate|].
  destruct (lookup Start_Year df) as [keys|] eqn:Hk; [|discriminate].
  shown H. inversion H; subst ms ys.
  exists names, keys. auto.
Qed.

Lemma df_trend_years (df : DataFrame) (keys : Series) :
  summable df ->
  lookup Start_Year df = Some keys ->
  exists sums,
    df_trend df
    = Ok [ (Start_Year, map CInt (sorted_unique (int_keys keys)));
           (Total_Budget, map CFloat sums) ].
Proof.
  intros (_ & Hc) Hk.
  destruct (Hc Total_Budget) as (tb & Htb & Ntb); [simpl; tauto|].
  rewrite (df_trend_spec _ _ _ Hk Htb Ntb). eauto.
Qed.

(** X6.  What the two select boxes offer once the guarded block has
    succeeded: the ministries are "All Ministries" followed by the distinct
    values of "Ministry Name", each text name of the column appearing
    among them; the years are "All Years" followed by the distinct Start
    Years in ascending order, the very years of the rows of the trend. *)
Theorem sidebar_options
  (read_csv : string -> result DataFrame) (df : DataFrame)
  (ms ys : list cell) :
  load_block read_csv = Ok (df, ms, ys) ->
  exists names keys rest years sums,
    lookup "Ministry Name" df = Some names
    /\ lookup Start_Year df = Some keys
    /\ ms = All_Ministries :: rest
    /\ Permutation (unique names) rest
    /\ (forall t, In (CStr t) rest <-> In (CStr t) names)
    /\ ys = All_Years :: map CInt years
    /\ StronglySorted Z.lt years
    /\ (forall y, In y years <-> In (CInt y) keys)
    /\ df_trend df
       = Ok [(Start_Year, map CInt years); (Total_Budget, map CFloat sums)].
Proof.
  intros H.
  destruct (load_block_Ok _ _ _ _ H) as (Hload & _).
  destruct (load_block_lists _ _ _ _ H) as (names & keys & Hn & _ & Hk & -> & ->).
  destruct (df_trend_years df keys
              (load_and_clean_data_summable _ _ _ Hload) Hk) as (sums & Ht).
  exists names, keys, (fold_right insert_cell [] (unique names)),
    (sorted_unique (int_keys keys)), sums.
  split; [assumption|]. split; [assumption|]. split; [reflexivity|].
  split; [apply sorted_cells_perm|].
  split.
  { intros t. split; intros Ht'.
    - apply unique_In_sub.
      apply (Permutation_in _ (Permutation_sym (sorted_cells_perm _)) Ht').
    - apply (Permutation_in _ (sorted_cells_perm _)).
      now apply unique_In_text. }
  split; [reflexivity|].
  split; [apply sorted_unique_sorted|].
  split; [|assumption].
  intros y. now rewrite sorted_unique_In, int_keys_In.
Qed.


(** ** Picks, filters and figures together *)

Lemma ga_Rendered_parts (read_csv : string -> result DataFrame)
  (pm py : nat) (p : page) :
  ga read_csv pm py = Rendered p ->
  exists ms ys,
    load_block read_csv = Ok (raw_data p, ms, ys)
    /\ load_and_clean_data read_csv file_path = Ok (raw_data p)
    /\ selected_ministry p = selectbox ms pm
    /\ selected_year p = selectbox ys py
    /\ df_filtered (raw_data p) (selected_ministry p) (selected_year p)
       = Ok (filtered p)
    /\ summable (filtered p)
    /\ key_metrics (filtered p) = Ok (key_figures p)
    /\ df_trend (raw_data p) = Ok (trend p).
Proof.
  intros H.
  destruct (ga_Rendered _ _ _ _ H) as (ms & ys & Hb & Hd).
  destruct (load_block_Ok _ _ _ _ Hb) as (Hload & Hm).
  destruct (dashboard_Ok _ _ _ _ _ _ Hd)
    as (_ & Hsm & Hsy & Hflt & Hmet & Htr & _).
  exists ms, ys. repeat (split; [assumption|]).
  split; [|split; assumption].
  destruct (df_filtered_total _ (selected_ministry p) (selected_year p) Hm
              (load_and_clean_data_summable _ _ _ Hload)) as (flt & Hf & Hs).
  congruence.
Qed.

Lemma selectbox_In (options : list cell) (picked : nat) :
  options <> [] -> In (selectbox options picked) options.
Proof.
  unfold selectbox. intros Hne.
  destruct (Nat.lt_ge_cases picked (length options)).
  - now apply nth_In.
  - rewrite nth_overflow by assumption.
    destruct options; [congruence|]. now left.
Qed.

Lemma cell_eqb_refl (c : cell) : c <> CNaN -> cell_eqb c c = true.
Proof.
  destruct c as [t|z|q|]; simpl; intros H.
  - apply String.eqb_refl.
  - apply Z.eqb_refl.
  - apply Qeq_bool_iff. reflexivity.
  - congruence.
Qed.

Lemma year_pick (read_csv : string -> result DataFrame) (df : DataFrame)
  (ms ys : list cell) (py : nat) :
  load_block read_csv = Ok (df, ms, ys) ->
  py_ne (selectbox ys py) All_Years = true ->
  exists y keys,
    selectbox ys py = CInt y
    /\ lookup Start_Year df = Some keys
    /\ Forall (fun c => is_int c = true) keys
    /\ In (CInt y) keys.
Proof.
  intros H Hne.
  destruct (load_block_Ok _ _ _ _ H) as (Hload & _).
  destruct (load_block_lists _ _ _ _ H) as (names & keys & Hn & _ & Hk & -> & ->).
  destruct (load_and_clean_data_columns _ _ _ Hload) as ((keys' & Hk' & Hint) & _).
  assert (keys' = keys) by congruence. subst keys'.
  destruct (selectbox_In (All_Years :: map CInt (sorted_unique (int_keys keys)))
              py) as [Heq|Hin]; [discriminate| |].
  - rewrite <- Heq in Hne. discriminate.
  - apply in_map_iff in Hin. destruct Hin as (y & Hy & Hin).
    exists y, keys. split; [now symmetry|]. split; [assumption|].
    split; [assumption|].
    now apply int_keys_In, sorted_unique_In.
Qed.

Lemma ministry_pick (read_csv : string -> result DataFrame) (df : DataFrame)
  (ms ys : list cell) (pm : nat) :
  load_block read_csv = Ok (df, ms, ys) ->
  py_ne (selectbox ms pm) All_Ministries = true ->
  exists names,
    lookup "Ministry Name" df = Some names
    /\ In (selectbox ms pm) names.
Proof.
  intros H Hne.
  destruct (load_block_lists _ _ _ _ H) as (names & keys & Hn & _ & Hk & -> & ->).
  exists names. split; [assumption|].
  destruct (selectbox_In
              (All_Ministries :: fold_right insert_cell [] (unique names)) pm)
    as [Heq|Hin]; [discriminate| |].
  - rewrite <- Heq in Hne. discriminate.
  - apply unique_In_sub.
    apply (Permutation_in _ (Permutation_sym (sorted_cells_perm _)) Hin).
Qed.

Lemma nonzero_cons (b : bool) (mask : list bool) :
  nonzero (b :: mask)
  = (if b then [O] else []) ++ map S (nonzero mask).
Proof.
  unfold nonzero. cbn [length seq filter nth].
  rewrite <- seq_shift, filter_map_swap.
  destruct b; reflexivity.
Qed.

Lemma nonzero_nonempty (col : Series) (v c : cell) :
  In c col -> cell_eqb c v = true -> nonzero (series_eq col v) <> [].
Proof.
  induction col as [|a col IH]; simpl; [tauto|].
  intros Hin Hc. rewrite nonzero_cons.
  destruct (cell_eqb a v) eqn:E; [discriminate|]. simpl.
  destruct Hin as [->|Hin]; [congruence|].
  intros H. apply map_eq_nil in H. now apply IH.
Qed.

Lemma empty_getitem_bool (df : DataFrame) (mask : list bool) :
  df <> [] -> nonzero mask <> [] -> empty (getitem_bool df mask) = false.
Proof.
  intros Hdf Hm. unfold empty, getitem_bool.
  rewrite nrows_take by assumption.
  unfold take at 1. rewrite length_map.
  destruct df; [congruence|]. destruct (nonzero mask); [congruence|].
  reflexivity.
Qed.

Lemma series_take_group (p : cell -> bool) (keys : Series) :
  forall vals,
    length keys = length vals ->
    series_take (nonzero (map p keys)) vals
    = map snd (filter (fun kv => p (fst kv)) (combine keys vals)).
Proof.
  induction keys as [|k keys IH]; intros [|v vals] Hlen;
    simpl in Hlen; try discriminate; [reflexivity|].
  cbn [map]. rewrite nonzero_cons. unfold series_take.
  rewrite map_app, map_map. cbn [combine filter fst nth].
  fold (series_take (nonzero (map p keys)) vals).
  rewrite IH by congruence.
  destruct (p k); reflexivity.
Qed.

(** X8.  A single pick never shows an empty view: when a year is picked
    with "All Ministries", or a ministry (not a blank) is picked with
    "All Years", the filtered table has at least one row and the key
    metrics are shown.  Only a ministry and a year picked together can
    leave nothing. *)
Theorem single_pick_shows_rows
  (read_csv : string -> result DataFrame) (pm py : nat) (p : page) :
  ga read_csv pm py = Rendered p ->
  (py_ne (selected_ministry p) All_Ministries = false
   /\ py_ne (selected_year p) All_Years = true)
  \/ (py_ne (selected_ministry p) All_Ministries = true
      /\ py_ne (selected_year p) All_Years = false
      /\ selected_ministry p <> CNaN) ->
  empty (filtered p) = false
  /\ exists m, key_figures p = Some m.
Proof.
  intros H Hpick.
  destruct (ga_Rendered_parts _ _ _ _ H)
    as (ms & ys & Hb & Hload & Hsm & Hsy & Hflt & Hsum & Hmet & _).
  assert (Hne : raw_data p <> []).
  { destruct (load_and_clean_data_summable _ _ _ Hload) as (Hk & _).
    intros E. rewrite E in Hk. now apply Hk. }
  assert (Hempty : empty (filtered p) = false).
  { unfold df_filtered, getitem in Hflt.
    destruct Hpick as [(Hm & Hy)|(Hm & Hy & Hnan)]; rewrite Hm, Hy in Hflt;
      cbn [bind] in Hflt.
    - rewrite Hsy in Hy.
      destruct (year_pick _ _ _ _ _ Hb Hy) as (y & keys & Hsel & Hk & _ & Hin).
      unfold Start_Year in Hk. rewrite Hk in Hflt. cbn [bind] in Hflt.
      inversion Hflt as [Hf]. apply empty_getitem_bool; [assumption|].
      apply (nonzero_nonempty keys _ (CInt y) Hin).
      rewrite Hsy, Hsel. apply Z.eqb_refl.
    - rewrite Hsm in Hm.
      destruct (ministry_pick _ _ _ _ _ Hb Hm) as (names & Hn & Hin).
      rewrite Hn in Hflt. cbn [bind] in Hflt.
      inversion Hflt as [Hf]. apply empty_getitem_bool; [assumption|].
      rewrite Hsm in Hnan |- *.
      apply (nonzero_nonempty names _ _ Hin). now apply cell_eqb_refl. }
  split; [assumption|].
  destruct (key_metrics_spec _ Hsum) as (m & Hm & _ & Hsome).
  destruct (Hsome Hempty) as (tb & tp & tn & a & b & c & _ & _ & _ & _ & _ & _ & ->).
  rewrite Hmet in Hm. inversion Hm. eauto.
Qed.

(** X9.  The key metric of a year and the point of the trend for that
    year are sums of the same cells: with "All Ministries" and the year y
    picked, the "Total Budget (INR Cr)" column of the filtered table holds
    exactly the cells of the rows of year y of the cleaned table, in row
    order.  The metric is what [Series.sum()] makes of them, the point of
    the trend what [groupby(...).sum()] makes of them. *)
Theorem year_metric_and_trend_point
  (read_csv : string -> result DataFrame) (raw : DataFrame)
  (pm py : nat) (p : page) (y : Z) :
  read_csv file_path = Ok raw ->
  rectangular raw ->
  ga read_csv pm py = Rendered p ->
  py_ne (selected_ministry p) All_Ministries = false ->
  selected_year p = CInt y ->
  exists keys budget years sums i m,
    lookup Start_Year (raw_data p) = Some keys
    /\ lookup Total_Budget (raw_data p) = Some budget
    /\ lookup Total_Budget (filtered p) = Some (group_values y keys budget)
    /\ trend p
       = [(Start_Year, map CInt years); (Total_Budget, map CFloat sums)]
    /\ nth_error years i = Some y
    /\ nth_error sums i
       = Some (group_sum_values (group_values y keys budget))
    /\ key_figures p = Some m
    /\ total_budget m = sum_values (group_values y keys budget).
Proof.
  intros Hraw Hr H Hm Hy.
  destruct (ga_Rendered_parts _ _ _ _ H)
    as (ms & ys & Hb & Hload & Hsm & Hsy & Hflt & Hsum & Hmet & Htr).
  assert (Hne : py_ne (selectbox ys py) All_Years = true)
    by (rewrite <- Hsy, Hy; reflexivity).
  destruct (year_pick _ _ _ _ _ Hb Hne) as (y' & keys & Hsel & Hk & Hint & Hin).
  assert (y' = y) by congruence. subst y'.
  destruct (load_and_clean_data_columns _ _ _ Hload) as (_ & Hc).
  destruct (Hc Total_Budget (or_introl eq_refl)) as (budget & Hbud & Hnum).
  destruct (load_and_clean_data_shape _ _ _ _ Hraw Hr Hload) as (_ & Hrect).
  assert (Hlen : length keys = length budget).
  { rewrite (rectangular_lookup _ _ _ Hrect Hk).
    now rewrite (rectangular_lookup _ _ _ Hrect Hbud). }
  pose proof (df_trend_spec _ _ _ Hk Hbud (numeric_is_no_text _ Hnum)) as Ht.
  set (years := sorted_unique (int_keys keys)) in *.
  assert (Hiny : In y years).
  { now apply sorted_unique_In, int_keys_In. }
  destruct (In_nth_error _ _ Hiny) as (i & Hi).
  assert (Hfiltered : filtered p
                      = getitem_bool (raw_data p) (series_eq keys (CInt y))).
  { unfold df_filtered, getitem in Hflt. rewrite Hm in Hflt.
    cbn [bind] in Hflt. rewrite Hy in Hflt.
    change (py_ne (CInt y) All_Years) with true in Hflt.
    unfold Start_Year in Hk. rewrite Hk in Hflt. cbn [bind] in Hflt.
    now inversion Hflt. }
  assert (Hcol : lookup Total_Budget (filtered p)
                 = Some (group_values y keys budget)).
  { rewrite Hfiltered. unfold getitem_bool. rewrite lookup_take, Hbud.
    cbn [option_map]. f_equal. unfold series_eq.
    rewrite series_take_group by assumption.
    unfold group_values. f_equal. apply filter_ext_in.
    intros [k v] Hkv. apply in_combine_l in Hkv. simpl.
    rewrite Forall_forall in Hint. specialize (Hint _ Hkv).
    destruct k; simpl in *; try discriminate. reflexivity. }
  assert (Hempty : empty (filtered p) = false).
  { rewrite Hfiltered. apply empty_getitem_bool.
    - intros E. rewrite E in Hk. discriminate.
    - apply (nonzero_nonempty keys _ (CInt y) Hin). apply Z.eqb_refl. }
  destruct (key_metrics_spec _ Hsum) as (m0 & Hm0 & _ & Hsome).
  destruct (Hsome Hempty)
    as (tb & tp & tn & a & b & c & Htb & Ha & _ & _ & _ & _ & ->).
  assert (tb = group_values y keys budget) by congruence. subst tb.
  rewrite series_sum_Ok in Ha.
  2:{ apply no_text_existsb, group_values_no_text.
      now apply numeric_is_no_text. }
  exists keys, budget, years, (group_sums years keys budget), i,
    {| total_budget := a; total_plan := b; total_non_plan := c |}.
  split; [assumption|]. split; [assumption|]. split; [assumption|].
  split; [congruence|]. split; [assumption|].
  split; [unfold group_sums; now rewrite (map_nth_error _ _ _ Hi)|].
  split; [congruence|]. simpl. congruence.
Qed.

(** X11.  With nothing picked (both boxes at their first option) the
    filtered table is the whole cleaned table, no breakdown is drawn but
    the hint to pick something, and the total budget among the key metrics
    is [Series.sum()] of the whole "Total Budget (INR Cr)" column. *)
Theorem unfiltered_view
  (read_csv : string -> result DataFrame) (p : page) :
  ga read_csv 0 0 = Rendered p ->
  selected_ministry p = All_Ministries
  /\ selected_year p = All_Years
  /\ filtered p = raw_data p
  /\ detail p = InfoMessage
  /\ (empty (raw_data p) = false ->
      exists tb m,
        lookup Total_Budget (raw_data p) = Some tb
        /\ key_figures p = Some m
        /\ total_budget m = sum_values tb).
Proof.
  intros H.
  destruct (ga_Rendered_parts _ _ _ _ H)
    as (ms & ys & Hb & Hload & Hsm & Hsy & Hflt & Hsum & Hmet & Htr).
  destruct (ga_Rendered _ _ _ _ H) as (ms' & ys' & Hb' & Hd).
  destruct (dashboard_Ok _ _ _ _ _ _ Hd) as (_ & _ & _ & _ & _ & _ & Hdetail).
  destruct (load_block_lists _ _ _ _ Hb)
    as (names & keys & _ & _ & _ & Hms & Hys).
  subst ms ys.
  assert (Hm0 : selected_ministry p = All_Ministries) by (rewrite Hsm; reflexivity).
  assert (Hy0 : selected_year p = All_Years) by (rewrite Hsy; reflexivity).
  rewrite Hm0, Hy0 in Hflt, Hdetail.
  assert (Hf : filtered p = raw_data p) by (inversion Hflt; reflexivity).
  split; [assumption|]. split; [assumption|]. split; [assumption|].
  split.
  { destruct (detail p) as [top|long|]; [| |reflexivity].
    - destruct Hdetail as (Hcontra & _). discriminate.
    - destruct Hdetail as (_ & Hcontra & _). discriminate. }
  intros Hempty. rewrite <- Hf in Hempty.
  destruct (key_metrics_spec _ Hsum) as (m0 & Hm0' & _ & Hsome).
  destruct (Hsome Hempty)
    as (tb & tp & tn & a & b & c & Htb & Ha & _ & _ & _ & _ & ->).
  destruct Hsum as (_ & Hcols).
  destruct (Hcols Total_Budget) as (tb' & Htb' & Hnt); [simpl; tauto|].
  assert (tb' = tb) by congruence. subst tb'.
  rewrite (series_sum_Ok _ (no_text_existsb _ Hnt)) in Ha.
  exists tb, {| total_budget := a; total_plan := b; total_non_plan := c |}.
  split; [now rewrite <- Hf|]. split; [congruence|]. simpl. congruence.
Qed.

(** ** The plain viewer *)

(** X12.  [g.py] shows the table exactly as read, never cleaned: the full
    table, and above it its first min(5, n) rows in order with every
    column; a missing file gives its own message and any other failure of
    the read the general one. *)
Theorem g_shows_table_as_read (read_csv : string -> result DataFrame) :
  (forall df,
      read_csv file_path = Ok df ->
      exists first,
        g read_csv = Shown first df
        /\ rows first = firstn 5 (rows df)
        /\ nrows first = Nat.min 5 (nrows df)
        /\ columns first = columns df)
  /\ (g read_csv = NotFound <-> read_csv file_path = Raise FileNotFoundError)
  /\ (forall e,
        e <> FileNotFoundError -> read_csv file_path = Raise e ->
        g read_csv = ReadFailed e).
Proof.
  unfold g. split; [|split].
  - intros df Hdf. rewrite Hdf. exists (head 5 df).
    split; [reflexivity|]. split; [apply rows_head|].
    split; [|apply columns_head].
    now rewrite <- length_rows, rows_head, length_firstn, length_rows.
  - destruct (read_csv file_path) as [df|[]]; split; congruence.
  - intros e Hne He. rewrite He. destruct e; congruence.
Qed.

(** ** More on filtering *)

Lemma nonzero_lt (mask : list bool) (i : nat) :
  In i (nonzero mask) -> (i < length mask)%nat.
Proof.
  unfold nonzero. intros H. apply filter_In in H. destruct H as (H & _).
  apply in_seq in H. lia.
Qed.

Lemma series_take_Forall (P : cell -> Prop) (idx : list nat) (s : Series) :
  (forall i, In i idx -> (i < length s)%nat) ->
  Forall P s -> Forall P (series_take idx s).
Proof.
  intros Hidx Hs. unfold series_take. apply Forall_map, Forall_forall.
  intros i Hi. rewrite Forall_forall in Hs. apply Hs, nth_In. auto.
Qed.

Lemma lookup_getitem_bool (c : string) (df : DataFrame) (mask : list bool) :
  lookup c (getitem_bool df mask)
  = option_map (series_take (nonzero mask)) (lookup c df).
Proof. apply lookup_take. Qed.

(** One boolean selection on a column of the table: rows, shape, columns
    and numbers. *)
Lemma filter_step (df : DataFrame) (c : string) (col : Series) (v : cell) :
  rectangular df -> lookup c df = Some col ->
  rows (getitem_bool df (series_eq col v))
  = filter (fun r => cell_eqb (field c r) v) (rows df)
  /\ rectangular (getitem_bool df (series_eq col v))
  /\ (forall c', lookup c' df <> None ->
                 lookup c' (getitem_bool df (series_eq col v)) <> None)
  /\ (forall c' s, lookup c' df = Some s ->
        Forall (fun x => is_numeric x = true) s ->
        exists s', lookup c' (getitem_bool df (series_eq col v)) = Some s'
                   /\ Forall (fun x => is_numeric x = true) s').
Proof.
  intros Hr Hc. split; [now apply rows_getitem_bool|].
  split; [apply rectangular_take|]. split.
  - intros c' H. rewrite lookup_getitem_bool.
    destruct (lookup c' df); [discriminate|congruence].
  - intros c' s Hs Hnum. rewrite lookup_getitem_bool, Hs.
    eexists. split; [reflexivity|].
    apply series_take_Forall; [|assumption].
    intros i Hi. apply nonzero_lt in Hi.
    unfold series_eq in Hi. rewrite length_map in Hi.
    rewrite (rectangular_lookup _ _ _ Hr Hs).
    now rewrite <- (rectangular_lookup _ _ _ Hr Hc).
Qed.

Lemma df_filtered_rows (df : DataFrame) (ministry year : cell) :
  rectangular df ->
  lookup "Ministry Name" df <> None ->
  lookup Start_Year df <> None ->
  exists out,
    df_filtered df ministry year = Ok out
    /\ rows out = filter (row_selected ministry year) (rows df)
    /\ rectangular out
    /\ (forall c, lookup c df <> None -> lookup c out <> None)
    /\ (forall c s, lookup c df = Some s ->
          Forall (fun x => is_numeric x = true) s ->
          exists s', lookup c out = Some s'
                     /\ Forall (fun x => is_numeric x = true) s').
Proof.
  intros Hr Hm Hy.
  destruct (lookup "Ministry Name" df) as [names|] eqn:Hnames; [|congruence].
  unfold df_filtered, row_selected, getitem.
  destruct (py_ne ministry All_Ministries); cbn [bind].
  - rewrite Hnames; cbn [bind].
    destruct (filter_step df _ names ministry Hr Hnames)
      as (Hrows1 & Hr1 & Hkeep1 & Hnum1).
    destruct (py_ne year All_Years); cbn [bind].
    + fold Start_Year.
      destruct (lookup Start_Year
                  (getitem_bool df (series_eq names ministry)))
        as [keys|] eqn:Hkeys; [|exfalso; now apply (Hkeep1 Start_Year)].
      cbn [bind].
      destruct (filter_step _ _ keys year Hr1 Hkeys)
        as (Hrows2 & Hr2 & Hkeep2 & Hnum2).
      eexists. split; [reflexivity|]. split.
      { rewrite Hrows2, Hrows1. apply filter_filter. }
      split; [assumption|]. split; [auto|].
      intros c s Hs Hn. destruct (Hnum1 c s Hs Hn) as (s1 & Hs1 & Hn1).
      eauto.
    + eexists. split; [reflexivity|]. split.
      { rewrite Hrows1. apply filter_ext. intros r. now rewrite andb_true_r. }
      auto.
  - destruct (py_ne year All_Years); cbn [bind].
    + fold Start_Year.
      destruct (lookup Start_Year df) as [keys|] eqn:Hkeys; [|congruence].
      cbn [bind].
      destruct (filter_step df _ keys year Hr Hkeys)
        as (Hrows2 & Hr2 & Hkeep2 & Hnum2).
      eexists. split; [reflexivity|]. split; [assumption|]. auto.
    + exists df. split; [reflexivity|]. split.
      { simpl. symmetry. apply filter_true. }
      split; [assumption|]. split; [auto|]. eauto.
Qed.

(** X13.  The two filters do not depend on their order and repeating them
    changes nothing: filtering by ministry and then by year, by year and
    then by ministry, and by both at once give the same rows in the same
    order, and so does filtering the result once more. *)
Theorem filters_commute_and_repeat (df : DataFrame) (ministry year : cell) :
  rectangular df ->
  lookup "Ministry Name" df <> None ->
  lookup Start_Year df <> None ->
  exists both by_ministry then_year by_year then_ministry again,
    df_filtered df ministry year = Ok both
    /\ df_filtered df ministry All_Years = Ok by_ministry
    /\ df_filtered by_ministry All_Ministries year = Ok then_year
    /\ df_filtered df All_Ministries year = Ok by_year
    /\ df_filtered by_year ministry All_Years = Ok then_ministry
    /\ df_filtered both ministry year = Ok again
    /\ rows then_year = rows both
    /\ rows then_ministry = rows both
    /\ rows again = rows both.
Proof.
  intros Hr Hm Hy.
  destruct (df_filtered_rows df ministry year Hr Hm Hy)
    as (both & Hboth & Rboth & Hrb & Hkb & _).
  destruct (df_filtered_rows df ministry All_Years Hr Hm Hy)
    as (bm & Hbm & Rbm & Hrm & Hkm & _).
  destruct (df_filtered_rows bm All_Ministries year Hrm (Hkm _ Hm) (Hkm _ Hy))
    as (ty & Hty & Rty & _).
  destruct (df_filtered_rows df All_Ministries year Hr Hm Hy)
    as (byy & Hby & Rby & Hry & Hky & _).
  destruct (df_filtered_rows byy ministry All_Years Hry (Hky _ Hm) (Hky _ Hy))
    as (tm & Htm & Rtm & _).
  destruct (df_filtered_rows both ministry year Hrb (Hkb _ Hm) (Hkb _ Hy))
    as (again & Hagain & Ragain & _).
  exists both, bm, ty, byy, tm, again.
  repeat (split; [assumption|]).
  split; [|split].
  - rewrite Rty, Rbm, Rboth, filter_filter. apply filter_ext.
    intros r. unfold row_selected. cbn.
    now rewrite andb_true_r.
  - rewrite Rtm, Rby, Rboth, filter_filter. apply filter_ext.
    intros r. unfold row_selected. cbn.
    rewrite andb_true_r. apply andb_comm.
  - rewrite Ragain, Rboth, filter_filter. apply filter_ext.
    intros r. apply andb_diag.
Qed.

(** X14.  Filtering keeps the table clean: in a rendered page the filtered
    table is rectangular, has the columns of the cleaned table and no more
    rows, and its financial columns and "Total Budget (INR Cr)" still hold
    numbers only. *)
Theorem filtered_view_stays_clean
  (read_csv : string -> result DataFrame) (raw : DataFrame)
  (pm py : nat) (p : page) :
  read_csv file_path = Ok raw ->
  rectangular raw ->
  ga read_csv pm py = Rendered p ->
  rectangular (filtered p)
  /\ (forall c, lookup c (raw_data p) <> None ->
                lookup c (filtered p) <> None)
  /\ (nrows (filtered p) <= nrows (raw_data p))%nat
  /\ (forall c, c = Total_Budget \/ In c finance_cols ->
        exists s, lookup c (filtered p) = Some s
                  /\ Forall (fun x => is_numeric x = true) s).
Proof.
  intros Hraw Hr H.
  destruct (ga_Rendered_parts _ _ _ _ H)
    as (ms & ys & Hb & Hload & _ & _ & Hflt & _).
  destruct (load_block_Ok _ _ _ _ Hb) as (_ & Hm).
  destruct (load_and_clean_data_shape _ _ _ _ Hraw Hr Hload) as (_ & Hrect).
  destruct (load_and_clean_data_columns _ _ _ Hload) as ((keys & Hk & _) & Hc).
  destruct (df_filtered_rows (raw_data p) (selected_ministry p)
              (selected_year p) Hrect Hm)
    as (out & Hout & Rout & Hro & Hko & Hno); [congruence|].
  assert (out = filtered p) by congruence. subst out.
  split; [assumption|]. split; [assumption|]. split.
  - rewrite <- !length_rows, Rout. apply filter_length_le.
  - intros c Hin. destruct (Hc c Hin) as (s & Hs & Hnum). eauto.
Qed.

(** X15.  The bar chart of a year shows rows of the view and nothing else:
    the top table has min(10, n) rows for a filtered table of n rows, each
    of them a row of the filtered table, hence a row of the cleaned table
    that passes the picks; with at most ten rows in the view it shows them
    all. *)
Theorem top_ministries_come_from_the_view
  (read_csv : string -> result DataFrame) (raw : DataFrame)
  (pm py : nat) (p : page) (top : DataFrame) :
  read_csv file_path = Ok raw ->
  rectangular raw ->
  ga read_csv pm py = Rendered p ->
  detail p = TopMinistries top ->
  nrows top = Nat.min 10 (nrows (filtered p))
  /\ (forall r, In r (rows top) ->
        In r (rows (filtered p))
        /\ In r (rows (raw_data p))
        /\ row_selected (selected_ministry p) (selected_year p) r = true)
  /\ ((nrows (filtered p) <= 10)%nat ->
      Permutation (rows (filtered p)) (rows top)).
Proof.
  intros Hraw Hr H Hdet.
  destruct (ga_Rendered_parts _ _ _ _ H)
    as (ms & ys & Hb & Hload & _ & _ & Hflt & _).
  destruct (ga_Rendered _ _ _ _ H) as (ms' & ys' & _ & Hd).
  destruct (dashboard_Ok _ _ _ _ _ _ Hd) as (_ & _ & _ & _ & _ & _ & Hdetail).
  rewrite Hdet in Hdetail. destruct Hdetail as (_ & Htop).
  destruct (load_block_Ok _ _ _ _ Hb) as (_ & Hm).
  destruct (load_and_clean_data_shape _ _ _ _ Hraw Hr Hload) as (_ & Hrect).
  destruct (load_and_clean_data_columns _ _ _ Hload) as ((keys & Hk & _) & Hc).
  destruct (df_filtered_rows (raw_data p) (selected_ministry p)
              (selected_year p) Hrect Hm)
    as (out & Hout & Rout & Hro & Hko & Hno); [congruence|].
  assert (out = filtered p) by congruence. subst out.
  destruct (Hc Total_Budget (or_introl eq_refl)) as (budget & Hbud & Hnum).
  destruct (Hno _ _ Hbud Hnum) as (tb & Htb & Hnumtb).
  assert (Hne : filtered p <> []) by (intros E; rewrite E in Htb; discriminate).
  unfold df_year_breakdown, sort_values_desc, getitem in Htop.
  unfold Total_Budget in Htb. rewrite Htb in Htop. cbn [bind] in Htop.
  rewrite (numeric_no_text _ Hnumtb) in Htop. cbn [bind] in Htop.
  inversion Htop as [Etop]; clear Htop.
  set (idx := argsort_desc (fun i => cell_value (nth i tb CNaN)) (length tb))
    in *.
  assert (Hperm : Permutation (seq 0 (nrows (filtered p))) idx).
  { rewrite <- (rectangular_lookup _ _ _ Hro Htb). apply argsort_desc_perm. }
  assert (Hsorted : Permutation (rows (filtered p)) (rows (take idx (filtered p)))).
  { rewrite rows_take by assumption. unfold rows at 1.
    now apply Permutation_map. }
  assert (Hlen : length (rows (take idx (filtered p))) = nrows (filtered p)).
  { now rewrite <- (Permutation_length Hsorted), length_rows. }
  rewrite rows_head.
  split; [|split].
  - now rewrite <- length_rows, rows_head, length_firstn, Hlen.
  - intros r Hin.
    assert (Hin' : In r (rows (filtered p))).
    { apply (Permutation_in _ (Permutation_sym Hsorted)).
      rewrite <- (firstn_skipn 10). apply in_or_app. now left. }
    split; [assumption|]. rewrite Rout in Hin'.
    apply filter_In in Hin'. tauto.
  - intros Hle. rewrite firstn_all2 by lia. assumption.
Qed.

End Facts.

(** ** What a run computes does not depend on the presentation layer *)

Section Presentation.
Context {L : Libraries}.






End Presentation.

(** ** The definitions at work *)

#[local] Existing Instance exact_sums.

Example py_int_examples :
  py_int "2015" = Some 2015
  /\ py_int " +2_015 " = Some 2015
  /\ py_int "" = None
  /\ py_int "FY15" = None
  /\ py_int "2015_" = None
  /\ py_int (String (ascii_of_nat 28) "2015") = None.
Proof. repeat split. Qed.

Example py_int_digit_limit :
  py_int (string_of_list_ascii (repeat "1"%char 4300)) <> None
  /\ py_int (string_of_list_ascii (repeat "1"%char 4301)) = None.
Proof. split; [vm_compute; discriminate|vm_compute; reflexivity]. Qed.

Example before_dash_examples :
  before_dash "2015-2016" = "2015"
  /\ before_dash "2015" = "2015"
  /\ before_dash "-2015" = ""
  /\ before_dash "20-15-16" = "20".
Proof. repeat split. Qed.

Example plain_decimal_examples :
  plain_decimal "1234.5" = Some (2469 # 2)
  /\ plain_decimal "12" = Some 12%Q
  /\ plain_decimal "-0.25" = Some (-1 # 4)
  /\ plain_decimal "0.1" = None
  /\ plain_decimal " 12 " = None
  /\ plain_decimal "1e3" = None
  /\ plain_decimal "inf" = None
  /\ plain_decimal "-" = None
  /\ plain_decimal "1,234" = None
  /\ plain_decimal "1234567890123456" = None.
Proof. repeat split. Qed.

Example load_sample :
  load_and_clean_data read_sample file_path = Ok sample_cleaned
  /\ lookup "Revenue (Plan)" sample_cleaned
     = Some [CFloat 0; CFloat 10; CFloat 0; CFloat 0]
  /\ lookup Start_Year sample_cleaned
     = Some [CInt 2015; CInt 2015; CInt 2016; CInt 2016].
Proof. repeat split. Qed.

Example load_missing_file :
  load_and_clean_data (fun _ => Raise FileNotFoundError) file_path
  = Raise FileNotFoundError.
Proof. reflexivity. Qed.

Example load_missing_column :
  load_and_clean_data (fun _ => Ok [("Year", [CStr "2015-2016"])]) file_path
  = Raise (KeyError "Revenue (Plan)").
Proof. reflexivity. Qed.

Example filter_year_2016 :
  df_filtered sample_cleaned All_Ministries (CInt 2016)
  = Ok (take [2; 3]%nat sample_cleaned).
Proof. reflexivity. Qed.

Example trend_sample :
  df_trend sample_cleaned
  = Ok [ ("Start Year", [CInt 2015; CInt 2016]);
         ("Total Budget (INR Cr)", [CFloat (2497 # 2); CFloat 21]) ].
Proof. reflexivity. Qed.

Example top_ten_of_dozen :
  exists top,
    df_year_breakdown dozen = Ok top
    /\ lookup Total_Budget top
       = Some (map CFloat [12; 11; 10; 9; 8; 7; 6; 5; 4; 3]%Q)
    /\ lookup "Ministry Name" top
       = Some (map CStr ["b"; "g"; "k"; "f"; "i"; "d"; "l"; "a"; "j"; "e"]).
Proof. eexists. repeat split. Qed.

Example viewer_examples :
  g read_sample = Shown (head 5 sample) sample
  /\ g (fun _ => Raise FileNotFoundError) = NotFound
  /\ g (fun _ => Raise ParserError) = ReadFailed ParserError.
Proof. repeat split. Qed.

(** binary64 at work: the three tenths are the numbers nearest to 0.1, 0.2
    and 0.3; added in order they give 0.6000000000000001, added with
    compensation 0.6. *)
Example binary64_examples :
  of_float (PrimFloat.div (to_float 1) (to_float 10)) = tenth
  /\ of_float (PrimFloat.div (to_float 2) (to_float 10)) = two_tenths
  /\ of_float (PrimFloat.div (to_float 3) (to_float 10)) = three_tenths
  /\ add_in_order [CFloat tenth; CFloat two_tenths; CFloat three_tenths]
     = 1351079888211149 # 2251799813685248
  /\ add_compensated [CFloat tenth; CFloat two_tenths; CFloat three_tenths]
     = 5404319552844595 # 9007199254740992
  /\ of_float (PrimFloat.div (to_float 6) (to_float 10))
     = 5404319552844595 # 9007199254740992.
Proof. repeat split; vm_compute; reflexivity. Qed.

Lemma sample_rectangular : rectangular sample.
Proof. unfold rectangular, sample. repeat constructor. Qed.

Lemma sample_cleaned_rectangular : rectangular sample_cleaned.
Proof. unfold rectangular, sample_cleaned. repeat constructor. Qed.

(** ** The theorems at work *)

Lemma finance_columns_numeric_after_cleaning_witness :
  exists raw before after,
    read_sample file_path = Ok raw
    /\ lookup "Revenue (Plan)" raw = Some before
    /\ getitem sample_cleaned "Revenue (Plan)" = Ok after
    /\ Forall (fun y => is_numeric y = true) after
    /\ length after = length before
    /\ forall i x, nth_error before i = Some x ->
         exists y,
           nth_error after i = Some y
           /\ is_numeric y = true
           /\ (x = CStr "-" \/ x = CStr "NA" \/ x = CNaN
               \/ (exists t, x = CStr t /\ to_numeric_text t = None) ->
               y = CFloat 0)
           /\ (is_numeric x = true -> y = x)
           /\ (forall t q, x = CStr t -> t <> "-" -> t <> "NA" ->
                           to_numeric_text t = Some q -> y = CFloat q)
           /\ (forall t q, x = CStr t -> plain_decimal t = Some q ->
                           y = CFloat q).
Proof.
  apply (finance_columns_numeric_after_cleaning read_sample file_path
           sample_cleaned).
  - vm_compute. reflexivity.
  - simpl. tauto.
Defined.

Lemma derived_columns_witness :
  exists raw years raw_total start total,
    read_sample file_path = Ok raw
    /\ lookup "Year" raw = Some years
    /\ lookup "Total Plan & Non-Plan" raw = Some raw_total
    /\ getitem sample_cleaned "Year" = Ok years
    /\ getitem sample_cleaned Start_Year = Ok start
    /\ getitem sample_cleaned "Total Plan & Non-Plan" = Ok total
    /\ getitem sample_cleaned Total_Budget = Ok total
    /\ length start = length years
    /\ (forall i pre suf y,
          nth_error years i = Some (CStr (pre ++ String "-" suf)%string) ->
          no_dash pre -> py_int pre = Some y ->
          nth_error start i = Some (CInt y))
    /\ (forall i,
          nth_error years i = Some (CStr "2015-2016") ->
          nth_error raw_total i = Some (CStr "1234.5") ->
          nth_error start i = Some (CInt 2015)
          /\ nth_error total i = Some (CFloat (2469 # 2))).
Proof.
  apply (derived_columns read_sample file_path sample_cleaned).
  vm_compute. reflexivity.
Defined.



Lemma df_filtered_exact_witness :
  exists out,
    df_filtered sample_cleaned All_Ministries (CInt 2016) = Ok out
    /\ rows out
       = filter (row_selected All_Ministries (CInt 2016)) (rows sample_cleaned)
    /\ columns out = columns sample_cleaned
    /\ ((forall r, In r (rows sample_cleaned) ->
                   row_selected All_Ministries (CInt 2016) r = false) ->
        rows out = [] /\ nrows out = O /\ empty out = true).
Proof.
  apply (df_filtered_exact sample_cleaned All_Ministries (CInt 2016)).
  - exact sample_cleaned_rectangular.
  - discriminate.
  - discriminate.
Defined.

Lemma df_year_breakdown_top10_witness :
  exists top rest,
    df_year_breakdown sample_cleaned = Ok top
    /\ nrows top = Nat.min 10 (nrows sample_cleaned)
    /\ columns top = columns sample_cleaned
    /\ Permutation (rows sample_cleaned) (rows top ++ rest)
    /\ StronglySorted (fun a b => (amount b <= amount a)%Q) (rows top)
    /\ (forall a b, In a (rows top) -> In b rest ->
                    (amount b <= amount a)%Q).
Proof.
  apply (df_year_breakdown_top10 sample_cleaned
           [CFloat (2469 # 2); CFloat 14; CFloat 9; CFloat 12]).
  - exact sample_cleaned_rectangular.
  - reflexivity.
  - repeat constructor.
Defined.

Lemma malformed_year_is_reported_witness :
  (exists e,
      (e = ValueError \/ e = AttributeError)
      /\ load_and_clean_data read_bad_year file_path = Raise e
      /\ ga read_bad_year 0 0 = Stopped e)
  /\ (forall other e,
        other file_path = Raise e -> ga other 0 0 = Stopped e)
  /\ (forall s, (exists e, start_year_of (CStr s) = Raise e)
                <-> py_int (before_dash s) = None)
  /\ start_year_of (CStr "2015") = Ok (CInt 2015).
Proof.
  apply (malformed_year_is_reported read_bad_year sample_bad_year
           [CStr "2015-2016"; CStr "FY15-16"; CStr "2016-2017";
            CStr "2016-2017"] 0 0).
  - reflexivity.
  - intros c Hc. simpl in Hc.
    destruct Hc as [<-|[<-|[<-|[<-|[<-|[<-|[<-|[]]]]]]]]; discriminate.
  - reflexivity.
  - apply Exists_cons_tl, Exists_cons_hd. exists ValueError. reflexivity.
Defined.

(** C1 as stated fails: no table, malformed Year or not, makes an error of
    the load-and-clean step leave the script uncaught, whatever the
    libraries answer; the sample with the Year cell "FY15-16" is reported
    and stopped. *)
Lemma malformed_year_uncaught_refuted :
  ga read_bad_year 0 0 = Stopped ValueError
  /\ ~ (exists (L : Libraries) read_csv pm py e,
          load_and_clean_data (L := L) read_csv file_path = Raise e
          /\ ga (L := L) read_csv pm py = Uncaught e).
Proof.
  split; [vm_compute; reflexivity|].
  intros (L & read_csv & pm & py & e & Hload & H).
  unfold ga in H. rewrite (load_block_Raise _ _ Hload) in H. discriminate.
Qed.





Lemma df_plan_nonplan_long_witness :
  exists long,
    df_plan_nonplan sample_cleaned = Ok long
    /\ columns long = [Start_Year; "Type"; "Amount"]
    /\ rows long
       = map (long_row "Total (Plan)") (rows sample_cleaned)
         ++ map (long_row "Total (Non-Plan)") (rows sample_cleaned)
    /\ nrows long = (2 * nrows sample_cleaned)%nat
    /\ forall y category,
         category = "Total (Plan)" \/ category = "Total (Non-Plan)" ->
         count_rows (is_pair y category) long
         = count_rows (in_year y) sample_cleaned.
Proof.
  apply (df_plan_nonplan_long sample_cleaned
           [CInt 2015; CInt 2015; CInt 2016; CInt 2016]
           [CFloat (3 # 2); CFloat 12; CFloat 3; CFloat 4]
           [CFloat 1233; CFloat 2; CFloat 6; CFloat 8]).
  - exact sample_cleaned_rectangular.
  - reflexivity.
  - reflexivity.
  - reflexivity.
Defined.

(** C8 as stated fails: with "Defence" picked and every year, on a table
    where Defence has two rows for 2015, the long table has two rows for
    (2015, "Total (Plan)"), not one. *)
Lemma one_row_per_year_refuted :
  exists p long,
    ga read_twice 1 0 = Rendered p
    /\ selected_ministry p = CStr "Defence"
    /\ selected_year p = All_Years
    /\ detail p = PlanVsNonPlan long
    /\ lookup Start_Year (filtered p) = Some [CInt 2015; CInt 2015]
    /\ nrows long = 4%nat
    /\ count_rows (is_pair 2015 "Total (Plan)") long = 2%nat.
Proof.
  eexists. eexists.
  split; [vm_compute; reflexivity|].
  repeat split; vm_compute; reflexivity.
Qed.


Lemma missing_column_is_KeyError_witness :
  load_and_clean_data read_no_total_plan file_path
  = Raise (KeyError "Total (Plan)")
  /\ ga read_no_total_plan 0 0 = Stopped (KeyError "Total (Plan)").
Proof.
  destruct (missing_column_is_KeyError read_no_total_plan
              sample_no_total_plan 0 0 eq_refl) as (H & _).
  apply (H ["Revenue (Plan)"; "Capital (Plan)"] "Total (Plan)"
           ["Revenue (Non-Plan)"; "Capital (Non-Plan)"; "Total (Non-Plan)";
            "Total Plan & Non-Plan"]).
  - reflexivity.
  - intros c' [<-|[<-|[]]]; discriminate.
  - reflexivity.
Defined.

Lemma load_and_clean_data_idempotent_witness :
  load_and_clean_data (fun _ => Ok sample_cleaned) "again.csv"
  = Ok sample_cleaned.
Proof.
  apply (load_and_clean_data_idempotent read_sample file_path "again.csv").
  vm_compute. reflexivity.
Defined.

Lemma start_years_not_negative_witness :
  exists start,
    getitem sample_cleaned Start_Year = Ok start
    /\ Forall (fun c => exists z, c = CInt z /\ 0 <= z) start.
Proof.
  apply (start_years_not_negative read_sample file_path sample_cleaned).
  vm_compute. reflexivity.
Defined.

Lemma start_year_reads_only_the_prefix_witness :
  start_year_of (CStr ("2015" ++ String "-" "whatever")%string)
  = start_year_of (CStr "2015")
  /\ (forall s, start_year_of (CStr (String "-" s)) = Raise ValueError)
  /\ (forall c, is_text c = false -> start_year_of c = Raise AttributeError).
Proof.
  apply (start_year_reads_only_the_prefix "2015" "whatever").
  intros [|[|[|[|[|i]]]]]; simpl; discriminate.
Defined.

Lemma sidebar_options_witness :
  exists names keys rest years sums,
    lookup "Ministry Name" sample_cleaned = Some names
    /\ lookup Start_Year sample_cleaned = Some keys
    /\ [All_Ministries; CStr "Defence"; CStr "Health"] = All_Ministries :: rest
    /\ Permutation (unique names) rest
    /\ (forall t, In (CStr t) rest <-> In (CStr t) names)
    /\ [All_Years; CInt 2015; CInt 2016] = All_Years :: map CInt years
    /\ StronglySorted Z.lt years
    /\ (forall y, In y years <-> In (CInt y) keys)
    /\ df_trend sample_cleaned
       = Ok [(Start_Year, map CInt years); (Total_Budget, map CFloat sums)].
Proof.
  apply (sidebar_options read_sample sample_cleaned
           [All_Ministries; CStr "Defence"; CStr "Health"]
           [All_Years; CInt 2015; CInt 2016]).
  vm_compute. reflexivity.
Defined.


Lemma single_pick_shows_rows_witness :
  exists p,
    ga read_sparse 0 2 = Rendered p
    /\ empty (filtered p) = false
    /\ exists m, key_figures p = Some m.
Proof.
  eexists. split; [vm_compute; reflexivity|].
  eapply (single_pick_shows_rows read_sparse 0 2).
  - vm_compute. reflexivity.
  - left. split; vm_compute; reflexivity.
Defined.

Lemma year_metric_and_trend_point_witness :
  exists p keys budget years sums i m,
    ga read_sample 0 2 = Rendered p
    /\ lookup Start_Year (raw_data p) = Some keys
    /\ lookup Total_Budget (raw_data p) = Some budget
    /\ lookup Total_Budget (filtered p) = Some (group_values 2016 keys budget)
    /\ trend p
       = [(Start_Year, map CInt years); (Total_Budget, map CFloat sums)]
    /\ nth_error years i = Some 2016
    /\ nth_error sums i
       = Some (group_sum_values (group_values 2016 keys budget))
    /\ key_figures p = Some m
    /\ total_budget m = sum_values (group_values 2016 keys budget).
Proof.
  assert (H : exists p, ga read_sample 0 2 = Rendered p
                        /\ py_ne (selected_ministry p) All_Ministries = false
                        /\ selected_year p = CInt 2016).
  { eexists. split; [vm_compute; reflexivity|]. split; reflexivity. }
  destruct H as (p & Hp & Hm & Hy).
  destruct (year_metric_and_trend_point read_sample sample 0 2 p 2016
              eq_refl sample_rectangular Hp Hm Hy)
    as (keys & budget & years & sums & i & m & Hrest).
  exists p, keys, budget, years, sums, i, m. split; assumption.
Defined.

Lemma unfiltered_view_witness :
  exists p,
    ga read_sample 0 0 = Rendered p
    /\ selected_ministry p = All_Ministries
    /\ selected_year p = All_Years
    /\ filtered p = raw_data p
    /\ detail p = InfoMessage
    /\ (empty (raw_data p) = false ->
        exists tb m,
          lookup Total_Budget (raw_data p) = Some tb
          /\ key_figures p = Some m
          /\ total_budget m = sum_values tb).
Proof.
  assert (H : exists p, ga read_sample 0 0 = Rendered p)
    by (eexists; vm_compute; reflexivity).
  destruct H as (p & Hp).
  exists p. split; [assumption|].
  apply (unfiltered_view read_sample p Hp).
Defined.

Lemma g_shows_table_as_read_witness :
  exists first,
    g read_sample = Shown first sample
    /\ rows first = firstn 5 (rows sample)
    /\ nrows first = Nat.min 5 (nrows sample)
    /\ columns first = columns sample.
Proof.
  destruct (g_shows_table_as_read read_sample) as (H & _).
  apply (H sample). reflexivity.
Defined.

Lemma filters_commute_and_repeat_witness :
  exists both by_ministry then_year by_year then_ministry again,
    df_filtered sample_cleaned (CStr "Health") (CInt 2016) = Ok both
    /\ df_filtered sample_cleaned (CStr "Health") All_Years = Ok by_ministry
    /\ df_filtered by_ministry All_Ministries (CInt 2016) = Ok then_year
    /\ df_filtered sample_cleaned All_Ministries (CInt 2016) = Ok by_year
    /\ df_filtered by_year (CStr "Health") All_Years = Ok then_ministry
    /\ df_filtered both (CStr "Health") (CInt 2016) = Ok again
    /\ rows then_year = rows both
    /\ rows then_ministry = rows both
    /\ rows again = rows both.
Proof.
  apply (filters_commute_and_repeat sample_cleaned (CStr "Health") (CInt 2016)).
  - exact sample_cleaned_rectangular.
  - discriminate.
  - discriminate.
Defined.

Lemma filtered_view_stays_clean_witness :
  exists p,
    ga read_sample 1 2 = Rendered p
    /\ rectangular (filtered p)
    /\ (forall c, lookup c (raw_data p) <> None ->
                  lookup c (filtered p) <> None)
    /\ (nrows (filtered p) <= nrows (raw_data p))%nat
    /\ (forall c, c = Total_Budget \/ In c finance_cols ->
          exists s, lookup c (filtered p) = Some s
                    /\ Forall (fun x => is_numeric x = true) s).
Proof.
  assert (H : exists p, ga read_sample 1 2 = Rendered p)
    by (eexists; vm_compute; reflexivity).
  destruct H as (p & Hp).
  exists p. split; [assumption|].
  apply (filtered_view_stays_clean read_sample sample 1 2 p eq_refl
           sample_rectangular Hp).
Defined.

Lemma top_ministries_come_from_the_view_witness :
  exists p top,
    ga read_sample 0 1 = Rendered p
    /\ detail p = TopMinistries top
    /\ nrows top = Nat.min 10 (nrows (filtered p))
    /\ (forall r, In r (rows top) ->
          In r (rows (filtered p))
          /\ In r (rows (raw_data p))
          /\ row_selected (selected_ministry p) (selected_year p) r = true)
    /\ ((nrows (filtered p) <= 10)%nat ->
        Permutation (rows (filtered p)) (rows top)).
Proof.
  assert (H : exists p top, ga read_sample 0 1 = Rendered p
                            /\ detail p = TopMinistries top).
  { eexists. eexists. split; [vm_compute; reflexivity|]. reflexivity. }
  destruct H as (p & top & Hp & Hd).
  exists p, top. split; [assumption|]. split; [assumption|].
  apply (top_ministries_come_from_the_view read_sample sample 0 1 p top
           eq_refl sample_rectangular Hp Hd).
Defined.

